(** * NLI result assembly and progressive disclosure: a shallow embedding

    The definitions below follow [src/nli_mcp.py]: the field normaliser
    ([extract_value_from_json], [get_simple_field]), the search proxy
    ([handle_search_nli]), the response composer with its two-tier image
    resolution ([handle_generate_response]), the batch streamer
    ([stream_batches]), the manifest and image handlers and the tool
    dispatcher ([handle_call_tool]).

    Conventions.
    - A Python object that travels through the program is a [json] value.
      Numbers are integers; floating point numbers are not represented.
    - A [str] is a Stdlib [string]; its elements are the code points of
      its characters, which are those below 256. Case folding and stripping
      are the ones of [str] on these characters.
    - A call that may raise returns a [result]: [Return v] or [Raise e].
    - The network, the JSON text decoder and [str()] of a non-string object
      are not code of this program: they are the fields of [Runtime], and
      every statement holds for every runtime. *)

From Stdlib Require Import ZArith List String Ascii Bool Lia.
Import ListNotations.
Set Warnings "-register-all".
Local Open Scope string_scope.
Local Open Scope Z_scope.

(** ** Values *)

Inductive json : Type :=
| JNull
| JBool (b : bool)
| JInt (z : Z)
| JStr (s : string)
| JArr (l : list json)
| JObj (m : list (string * json)).

Definition dict := list (string * json).

(** ** Exceptions and results *)

Inductive exn : Type :=
| KeyError (key : string)
| IndexError
| TypeError
| AttributeError
| ValueError (msg : string)
| JSONDecodeError
| RecursionError
| TransportError (msg : string)
| HTTPStatusError (code : Z).

Inductive result (A : Type) : Type :=
| Return (a : A)
| Raise (e : exn).
Arguments Return {A} a.
Arguments Raise {A} e.

Definition bind {A B} (r : result A) (f : A -> result B) : result B :=
  match r with
  | Return a => f a
  | Raise e => Raise e
  end.

Notation "x <- c1 ;; c2" := (bind c1 (fun x => c2))
  (at level 61, c1 at next level, right associativity).

(** [try: body except JSONDecodeError: handler] and
    [try: body except Exception: handler]. *)
Definition is_JSONDecodeError (e : exn) : bool :=
  match e with JSONDecodeError => true | _ => false end.

Definition try_except {A} (body : result A) (handler : exn -> result A) : result A :=
  match body with
  | Return a => Return a
  | Raise e => handler e
  end.

(** ** Strings *)

(** The upper case letters: A to Z, and in the upper half the letters from
    192 to 222 except the multiplication sign 215. Each has its lower case
    32 places further. *)
Definition is_upper (c : ascii) : bool :=
  let n := nat_of_ascii c in
  ((Nat.leb 65 n && Nat.leb n 90)
   || (Nat.leb 192 n && Nat.leb n 222 && negb (Nat.eqb n 215)))%bool.

Definition lower_char (c : ascii) : ascii :=
  if is_upper c then ascii_of_nat (nat_of_ascii c + 32) else c.

(** [s.lower()] *)
Fixpoint lower (s : string) : string :=
  match s with
  | EmptyString => EmptyString
  | String c r => String (lower_char c) (lower r)
  end.

(** [s.startswith(p)] *)
Fixpoint startswith (s p : string) : bool :=
  match p, s with
  | EmptyString, _ => true
  | String _ _, EmptyString => false
  | String a p', String b s' => (Ascii.eqb a b && startswith s' p')%bool
  end.

(** [p in s] for two strings *)
Fixpoint contains (s p : string) : bool :=
  (startswith s p ||
   match s with
   | EmptyString => false
   | String _ r => contains r p
   end)%bool.

(** [s.endswith(p)] *)
Fixpoint endswith (s p : string) : bool :=
  (String.eqb s p ||
   match s with
   | EmptyString => false
   | String _ r => endswith r p
   end)%bool.

(** The characters [str.strip()] removes: the controls 9 to 13 and 28 to
    31, the space, the next-line control 133 and the no-break space 160. *)
Definition is_space (c : ascii) : bool :=
  let n := nat_of_ascii c in
  ((Nat.leb 9 n && Nat.leb n 13) || (Nat.leb 28 n && Nat.leb n 32)
   || Nat.eqb n 133 || Nat.eqb n 160)%bool.

Fixpoint lstrip (s : string) : string :=
  match s with
  | String c r => if is_space c then lstrip r else s
  | EmptyString => EmptyString
  end.

Fixpoint rstrip (s : string) : string :=
  match s with
  | EmptyString => EmptyString
  | String c r =>
      match rstrip r with
      | EmptyString => if is_space c then EmptyString else String c EmptyString
      | r' => String c r'
      end
  end.

(** [s.strip()] *)
Definition strip (s : string) : string := rstrip (lstrip s).

Definition apostrophe : ascii := ascii_of_nat 39.
Definition double_quote : ascii := ascii_of_nat 34.

(** [s.replace(apostrophe, double_quote)] *)
Fixpoint replace_quotes (s : string) : string :=
  match s with
  | EmptyString => EmptyString
  | String c r =>
      String (if Ascii.eqb c apostrophe then double_quote else c) (replace_quotes r)
  end.

(** [sep.join(parts)] *)
Fixpoint join (sep : string) (parts : list string) : string :=
  match parts with
  | [] => EmptyString
  | [p] => p
  | p :: rest => p ++ sep ++ join sep rest
  end.

Definition chars (s : string) : list string :=
  map (fun c => String c EmptyString) (list_ascii_of_string s).

(** ** Sequences and slices *)

(** The bound of a slice: a negative index counts from the end, and both
    ends are clamped to the sequence. *)
Definition slice_bound (len i : Z) : Z :=
  if i <? 0 then Z.max 0 (i + len) else Z.min i len.

(** [l[lo:hi]] *)
Definition py_slice {A} (l : list A) (lo hi : Z) : list A :=
  let n := Z.of_nat (List.length l) in
  let lo' := slice_bound n lo in
  let hi' := slice_bound n hi in
  firstn (Z.to_nat (hi' - lo')) (skipn (Z.to_nat lo') l).

(** ** Dictionaries *)

Fixpoint lookup (m : dict) (k : string) : option json :=
  match m with
  | [] => None
  | (k', v) :: rest => if String.eqb k' k then Some v else lookup rest k
  end.

(** [m[k]] *)
Definition subscript (m : dict) (k : string) : result json :=
  match lookup m k with
  | Some v => Return v
  | None => Raise (KeyError k)
  end.

(** [m.get(k, default)] and [m.get(k)] *)
Definition get_default (m : dict) (k : string) (default : json) : json :=
  match lookup m k with
  | Some v => v
  | None => default
  end.

Definition get (m : dict) (k : string) : json := get_default m k JNull.

(** [m[k] = v]: an existing key keeps its place, a new one goes last. *)
Fixpoint store (m : dict) (k : string) (v : json) : dict :=
  match m with
  | [] => [(k, v)]
  | (k', v') :: rest =>
      if String.eqb k' k then (k', v) :: rest else (k', v') :: store rest k v
  end.

(** ** Operations on objects of any type *)

(** [o.get(k, default)]: only a dict has the method. *)
Definition obj_get (o : json) (k : string) (default : json) : result json :=
  match o with
  | JObj m => Return (get_default m k default)
  | _ => Raise AttributeError
  end.

(** Truth value of an object. *)
Definition truthy (v : json) : bool :=
  match v with
  | JNull => false
  | JBool b => b
  | JInt z => negb (z =? 0)
  | JStr s => negb (String.eqb s "")
  | JArr l => match l with [] => false | _ => true end
  | JObj m => match m with [] => false | _ => true end
  end.

(** An object used as an integer: [bool] is a subclass of [int]. *)
Definition as_int (v : json) : option Z :=
  match v with
  | JInt z => Some z
  | JBool b => Some (if b then 1 else 0)
  | _ => None
  end.

Definition int_binop (f : Z -> Z -> Z) (a b : json) : result Z :=
  match as_int a, as_int b with
  | Some x, Some y => Return (f x y)
  | _, _ => Raise TypeError
  end.

(** [a < b] on integers *)
Definition int_lt (a b : json) : result bool :=
  match as_int a, as_int b with
  | Some x, Some y => Return (x <? y)
  | _, _ => Raise TypeError
  end.

(** [len(o)] *)
Definition py_len (o : json) : result Z :=
  match o with
  | JArr l => Return (Z.of_nat (List.length l))
  | JStr s => Return (Z.of_nat (String.length s))
  | JObj m => Return (Z.of_nat (List.length m))
  | _ => Raise TypeError
  end.

(** [o[lo:hi]] with integer bounds. A dict refuses a slice (with a
    [KeyError] instead from Python 3.12 on). *)
Definition py_getslice (o : json) (lo hi : Z) : result json :=
  match o with
  | JArr l => Return (JArr (py_slice l lo hi))
  | JStr s =>
      Return (JStr (string_of_list_ascii (py_slice (list_ascii_of_string s) lo hi)))
  | _ => Raise TypeError
  end.

(** [for x in o] *)
Definition py_iter (o : json) : result (list json) :=
  match o with
  | JArr l => Return l
  | JStr s => Return (map JStr (chars s))
  | JObj m => Return (map (fun kv => JStr (fst kv)) m)
  | _ => Raise TypeError
  end.

Definition is_str (v : json) (s : string) : bool :=
  match v with
  | JStr s' => String.eqb s' s
  | _ => false
  end.

(** [s in o] for a string [s] *)
Definition py_in (s : string) (o : json) : result bool :=
  match o with
  | JStr t => Return (contains t s)
  | JArr l => Return (existsb (fun v => is_str v s) l)
  | JObj m => Return (existsb (fun kv => String.eqb (fst kv) s) m)
  | _ => Raise TypeError
  end.

(** [o[0]] *)
Definition py_first (o : json) : result json :=
  match o with
  | JArr [] => Raise IndexError
  | JArr (x :: _) => Return x
  | JStr EmptyString => Raise IndexError
  | JStr (String c _) => Return (JStr (String c EmptyString))
  | JObj _ => Raise (KeyError "0")
  | _ => Raise TypeError
  end.

(** ** The world outside the program *)

(** What one HTTP exchange gives: [client.get] raises, [raise_for_status]
    raises, or there is a response, whose [json()] raises on a body that is
    no JSON document. *)
Inductive reply : Type :=
| Garbage
| Document (data : json).

Inductive http_outcome : Type :=
| Unreachable (e : exn)
| Refused (e : exn)
| Replied (r : reply).

Class Runtime : Type := {
  (** [json.loads] on a text that starts like a JSON value: the value, or
      the exception raised, which is [JSONDecodeError] for a malformed text
      and may be another one, a [ValueError] for an integer literal of too
      many digits or a [RecursionError] for too deep a nesting *)
  json_decode : string -> result json;
  (** [str(o)] for an object that is no string *)
  py_repr : json -> string;
  (** [str(e)] for an exception *)
  exn_str : exn -> string;
  (** [os.getenv("NLI_API_KEY", ...)] *)
  NLI_API_KEY : string;
  (** [client.get(BASE_SEARCH_URL, params=params)] *)
  search_get : dict -> http_outcome;
  (** [client.get(url)] *)
  url_get : string -> http_outcome
}.

Definition BASE_SEARCH_URL : string := "https://api.nli.org.il/openlibrary/search".
Definition BASE_IIIF_IMAGE : string := "https://iiif.nli.org.il/IIIFv21".

(** [async with ... : response = await client.get(..); response.raise_for_status()] *)
Definition responded (o : http_outcome) : result reply :=
  match o with
  | Unreachable e => Raise e
  | Refused e => Raise e
  | Replied r => Return r
  end.

(** [response.json()] *)
Definition response_json (r : reply) : result json :=
  match r with
  | Garbage => Raise JSONDecodeError
  | Document data => Return data
  end.

(** ** Text payloads *)

Record ImageRecord : Type := {
  recordId : option string;
  title : option string;
  thumbnailUrl : string
}.

(** The values interpolated in the prompts of [handle_generate_response]. *)
Record summary : Type := {
  s_total_results : json;
  s_results_start : Z;
  s_results_end : Z;
  s_batch_size : Z;
  s_has_more : bool;
  s_next_offset : option Z;
  s_current_limit : json;
  s_search_data : json;
  s_items_images : list ImageRecord;
  s_user_query : json
}.

Record continuation : Type := {
  c_more : Z;
  c_current_limit : json;
  c_next_offset : option Z
}.

(** The values interpolated in the prompts of [stream_batches]. *)
Record batch : Type := {
  batch_start : Z;
  batch_end : Z;
  b_len_items : Z;
  b_total_results : json;
  b_context_items : json;
  b_items_images : json;
  b_user_query : json;
  next_offset : Z;
  remaining : Z
}.

Record completion : Type := {
  f_len_items : Z;
  f_total_results : json;
  f_user_query : json
}.

(** The text of a payload: a dumped JSON document, literal characters, or
    one of the prompt templates with the values that fill it. *)
Inductive body : Type :=
| Dumped (j : json)
| Chars (s : string)
| QueryPrompt (user_query : json)
| SummaryPrompt (s : summary)
| ContinuationPrompt (c : continuation)
| BatchPrompt (b : batch)
| CompletePrompt (c : completion).

Record TextContent : Type := {
  text : body;
  is_error : bool
}.

Definition text_content (b : body) : TextContent :=
  {| text := b; is_error := false |}.

(** ** Decoding JSON *)

Definition is_json_space (c : ascii) : bool :=
  let n := nat_of_ascii c in
  (Nat.eqb n 32 || Nat.eqb n 9 || Nat.eqb n 10 || Nat.eqb n 13)%bool.

Fixpoint skip_json_space (s : string) : string :=
  match s with
  | String c r => if is_json_space c then skip_json_space r else s
  | EmptyString => EmptyString
  end.

Definition is_digit (c : ascii) : bool :=
  let n := nat_of_ascii c in (Nat.leb 48 n && Nat.leb n 57)%bool.

(** The characters at which the scanner of [json.loads] finds a value: a
    string, an object, an array, [null], [true], [false], a number, [NaN],
    [Infinity]. At any other character it raises. *)
Definition starts_json_value (s : string) : bool :=
  match skip_json_space s with
  | EmptyString => false
  | String c _ =>
      (Ascii.eqb c double_quote || Ascii.eqb c "{" || Ascii.eqb c "["
       || Ascii.eqb c "n" || Ascii.eqb c "t" || Ascii.eqb c "f"
       || Ascii.eqb c "-" || is_digit c
       || Ascii.eqb c "N" || Ascii.eqb c "I")%bool
  end.

Section Program.
Context `{Runtime}.

(** [str(o)] *)
Definition py_str (o : json) : string :=
  match o with
  | JStr s => s
  | _ => py_repr o
  end.

(** [json.loads(s)] for a string *)
Definition json_loads_str (s : string) : result json :=
  if starts_json_value s then json_decode s else Raise JSONDecodeError.

(** [json.loads(t)] for the text of a payload. The prompt templates open
    with the instruction texts, which are no JSON. *)
Definition json_loads (t : body) : result json :=
  match t with
  | Dumped j => Return j
  | Chars s => json_loads_str s
  | _ => Raise JSONDecodeError
  end.

(** ** Field normaliser *)

Definition extract_value_from_json (value : json) : result string :=
  match value with
  | JStr s =>
      parsed <- try_except
                  (p <- json_loads_str (replace_quotes s) ;; Return (Some p))
                  (fun e => if is_JSONDecodeError e then Return None else Raise e) ;;
      match parsed with
      | Some (JObj m) =>
          match lookup m "@value" with
          | Some v => Return (strip (py_str v))
          | None => Return (strip s)
          end
      | _ => Return (strip s)
      end
  | _ => Raise AttributeError
  end.

Definition get_simple_field (item : json) (key_name : string) : result (option string) :=
  value <- obj_get item key_name JNull ;;
  let otherwise :=
    match value with
    | JNull => Return None
    | _ => Return (Some (strip (py_str value)))
    end in
  match value with
  | JStr s =>
      if contains s "@value"
      then v <- extract_value_from_json (JStr (py_str value)) ;; Return (Some v)
      else otherwise
  | JArr l =>
      first <- py_first value ;;
      marked <- py_in "@value" first ;;
      if marked
      then v <- extract_value_from_json (JStr (py_str first)) ;; Return (Some v)
      else otherwise
  | _ => otherwise
  end.

(** ** Manifest and image handlers *)

Definition error_text (prefix : string) (e : exn) : list TextContent :=
  [text_content (Chars (prefix ++ exn_str e))].

Definition handle_get_manifest (arguments : dict) : result (list TextContent) :=
  recordId <- subscript arguments "recordId" ;;
  let url := BASE_IIIF_IMAGE ++ "/" ++ py_str recordId ++ "/manifest" in
  try_except
    (response <- responded (url_get url) ;;
     data <- response_json response ;;
     Return [text_content (Dumped data)])
    (fun e => Return (error_text "Error retrieving manifest: " e)).

Definition handle_get_image (arguments : dict) : result (list TextContent) :=
  identifier <- subscript arguments "identifier" ;;
  let region := get_default arguments "region" (JStr "full") in
  let size := get_default arguments "size" (JStr "max") in
  (* the default 0.0 is only ever formatted into the URL *)
  let rotation := get_default arguments "rotation" (JStr "0.0") in
  let quality := get_default arguments "quality" (JStr "default") in
  let fmt := get_default arguments "format" (JStr "jpg") in
  let url := BASE_IIIF_IMAGE ++ "/" ++ py_str identifier ++ "/" ++ py_str region
             ++ "/" ++ py_str size ++ "/" ++ py_str rotation ++ "/"
             ++ py_str quality ++ "." ++ py_str fmt in
  try_except
    (_ <- responded (url_get url) ;;
     Return [text_content (Chars ("Image retrieved successfully from: " ++ url))])
    (fun e => Return (error_text "Error retrieving image: " e)).

(** ** Search proxy *)

Definition is_None (v : json) : bool :=
  match v with JNull => true | _ => false end.

(** [",".join(fields)]: the elements of a list, the characters of a string
    or the keys of a dict, which must all be strings. *)
Fixpoint all_strings (l : list json) : option (list string) :=
  match l with
  | [] => Some []
  | JStr s :: rest =>
      match all_strings rest with
      | Some ss => Some (s :: ss)
      | None => None
      end
  | _ :: _ => None
  end.

Definition join_fields (fields : json) : result string :=
  parts <- py_iter fields ;;
  match all_strings parts with
  | Some ss => Return (join "," ss)
  | None => Raise TypeError
  end.

Definition optional_filters (arguments : dict) : dict :=
  [ ("material_type", get arguments "materialType");
    ("availability_type", get arguments "availabilityType");
    ("sortField", get arguments "sortField");
    ("sort_order", get arguments "sortOrder");
    ("language", get arguments "lang");
    ("creator", get arguments "creator");
    ("subject", get arguments "subject");
    ("publisher", get arguments "publisher");
    ("publication_year_from", get arguments "publicationYearFrom");
    ("publication_year_to", get arguments "publicationYearTo");
    ("collection", get arguments "collection");
    ("contributor", get arguments "contributor");
    ("isbn", get arguments "isbn");
    ("issn", get arguments "issn");
    ("start_date", get arguments "dateFrom");
    ("end_date", get arguments "dateTo") ].

Definition store_unless_None (params : dict) (kv : string * json) : dict :=
  if is_None (snd kv) then params else store params (fst kv) (snd kv).

Definition search_params (arguments : dict) (q : json) : result dict :=
  let output_format := get_default arguments "output_format" (JStr "json") in
  let limit := get arguments "limit" in
  let offset := get_default arguments "offset" (JInt 0) in
  let facet_field := get_default arguments "facet_field" (JArr []) in
  let facet_limit := get arguments "facet_limit" in
  let facet_offset := get arguments "facet_offset" in
  let facet_sort := get arguments "facet_sort" in
  let fields := get_default arguments "fields" (JArr []) in
  let params :=
    [ ("api_key", JStr NLI_API_KEY); ("query", q);
      ("output_format", output_format); ("rows", limit); ("start", offset) ] in
  let params := fold_left store_unless_None (optional_filters arguments) params in
  let params := if truthy facet_field then store params "facet.field" facet_field else params in
  let params := store_unless_None params ("facet.limit", facet_limit) in
  let params := store_unless_None params ("facet.offset", facet_offset) in
  let params := if truthy facet_sort then store params "facet.sort" facet_sort else params in
  if truthy fields
  then joined <- join_fields fields ;; Return (store params "fields" (JStr joined))
  else Return params.

(** [items[offset:offset+limit]]. The sum is an index only when both are
    integers: the sum of two strings or two lists is refused by the slice,
    with the same [TypeError]. *)
Definition client_slice (items offset limit : json) : result json :=
  match as_int offset, as_int limit with
  | Some lo, Some n => py_getslice items lo (lo + n)
  | _, _ => Raise TypeError
  end.

Definition search_envelope (data offset limit : json) : result json :=
  match data with
  | JArr l =>
      let total := JInt (Z.of_nat (List.length l)) in
      page <- client_slice data offset limit ;;
      Return (JObj [("total_results", total); ("items", page)])
  | _ =>
      total <- obj_get data "total_results" (JInt 0) ;;
      items <- obj_get data "items" (JArr []) ;;
      page <- client_slice items offset limit ;;
      Return (JObj [("total_results", total); ("items", page)])
  end.

Definition handle_search_nli (arguments : dict) : result (list TextContent) :=
  q <- subscript arguments "q" ;;
  let limit := get arguments "limit" in
  let offset := get_default arguments "offset" (JInt 0) in
  params <- search_params arguments q ;;
  try_except
    (response <- responded (search_get params) ;;
     data <- response_json response ;;
     envelope <- search_envelope data offset limit ;;
     Return [text_content (Dumped envelope)])
    (fun e => Return (error_text "Error searching NLI: " e)).

(** ** Image resolution *)

Definition RECORDID : string := "http://purl.org/dc/elements/1.1/recordid".
Definition TITLE : string := "http://purl.org/dc/elements/1.1/title".
Definition THUMBNAIL : string := "http://purl.org/dc/elements/1.1/thumbnail".

(** [thumbnail.startswith(("http://", "https://"))] *)
Definition starts_http (s : string) : bool :=
  (startswith s "http://" || startswith s "https://")%bool.

(** The truth value of a normalised field: [None] and the empty string
    are false. *)
Definition has_text (o : option string) : bool :=
  match o with
  | None => false
  | Some s => negb (String.eqb s "")
  end.

Definition text_of (o : option string) : string :=
  match o with
  | None => ""
  | Some s => s
  end.

(** The loop over [current_items]: [images] is [items_images], [queue] is
    [items_for_manifest], in step with [manifest_tasks]. *)
Fixpoint classify (items : list json) (images : list ImageRecord)
    (queue : list (string * option string))
  : result (list ImageRecord * list (string * option string)) :=
  match items with
  | [] => Return (images, queue)
  | item :: rest =>
      record_id <- get_simple_field item RECORDID ;;
      title_ <- get_simple_field item TITLE ;;
      thumbnail <- get_simple_field item THUMBNAIL ;;
      let unusable :=
        (negb (has_text thumbnail)
         || (has_text thumbnail && negb (starts_http (text_of thumbnail))))%bool in
      let direct :=
        if (has_text thumbnail && starts_http (text_of thumbnail))%bool
        then classify rest
               (images ++ [{| recordId := record_id; title := title_;
                              thumbnailUrl := text_of thumbnail |}])%list
               queue
        else classify rest images queue in
      match record_id with
      | Some rid =>
          if unusable then classify rest images (queue ++ [(rid, title_)])%list
          else direct
      | None => direct
      end
  end.

(** [id.lower().endswith((".jpg", ".png")) and "logo" not in id.lower()] *)
Definition qualifies (id : string) : bool :=
  ((endswith (lower id) ".jpg" || endswith (lower id) ".png")
   && negb (contains (lower id) "logo"))%bool.

(** [img.get("resource", {}).get("@id", "")] *)
Definition image_id (img : json) : result json :=
  resource <- obj_get img "resource" (JObj []) ;;
  obj_get resource "@id" (JStr "").

(** The filter of the generator; [lower] is a method of strings only. *)
Definition image_test (id : json) : result (option string) :=
  match id with
  | JStr s => Return (if qualifies s then Some s else None)
  | _ => Raise AttributeError
  end.

(** The generator, consumed by [next(..., None)] up to its first element. *)
Fixpoint first_image (imgs : list json) : result (option string) :=
  match imgs with
  | [] => Return None
  | img :: rest =>
      id <- image_id img ;;
      hit <- image_test id ;;
      match hit with
      | Some s => Return (Some s)
      | None => first_image rest
      end
  end.

Fixpoint scan_canvases (canvases : list json) : result (option string) :=
  match canvases with
  | [] => Return None
  | canvas :: rest =>
      images <- obj_get canvas "images" (JArr []) ;;
      imgs <- py_iter images ;;
      hit <- first_image imgs ;;
      match hit with
      | Some s => Return (Some s)
      | None => scan_canvases rest
      end
  end.

Definition first_payload (payloads : list TextContent) : result TextContent :=
  match payloads with
  | [] => Raise IndexError
  | p :: _ => Return p
  end.

(** The body of the [try] for one manifest result. *)
Definition manifest_image (payloads : list TextContent) : result (option string) :=
  p <- first_payload payloads ;;
  manifest_data <- json_loads (text p) ;;
  sequences <- obj_get manifest_data "sequences" (JArr []) ;;
  if truthy sequences then
    sequence <- py_first sequences ;;
    canvases <- obj_get sequence "canvases" (JArr []) ;;
    cs <- py_iter canvases ;;
    image_url <- scan_canvases cs ;;
    match image_url with
    | Some url => Return (if String.eqb url "" then None else Some url)
    | None => Return None
    end
  else Return None.

(** One turn of the loop over [zip(items_for_manifest, manifest_results)]:
    a result that is an exception is skipped, and so is one on which the
    body raises. *)
Definition fallback_image (queued : string * option string)
    (outcome : result (list TextContent)) : list ImageRecord :=
  match outcome with
  | Raise _ => []
  | Return payloads =>
      match manifest_image payloads with
      | Return (Some url) =>
          [{| recordId := Some (fst queued); title := snd queued; thumbnailUrl := url |}]
      | Return None => []
      | Raise _ => []
      end
  end.

(** The results of [asyncio.gather] over [manifest_tasks], with
    [return_exceptions=True]. *)
Definition manifest_results (queue : list (string * option string))
  : list (result (list TextContent)) :=
  map (fun queued => handle_get_manifest [("recordId", JStr (fst queued))]) queue.

Definition fallback_images (queue : list (string * option string)) : list ImageRecord :=
  flat_map (fun qr => fallback_image (fst qr) (snd qr))
           (combine queue (manifest_results queue)).

Definition resolve_images (items : list json) : result (list ImageRecord) :=
  classified <- classify items [] [] ;;
  Return (fst classified ++ fallback_images (snd classified))%list.

(** ** Response composer *)

Definition keeps_for_search (kv : string * json) : bool :=
  (negb (String.eqb (fst kv) "user_query") && negb (String.eqb (fst kv) "limit")
   && negb (is_None (snd kv)))%bool.

(** The part of [handle_generate_response] after the search result has been
    decoded, up to the [return]. *)
Definition compose_response (user_query search_data : json) : result (list TextContent) :=
  total_results <- obj_get search_data "total_results" (JInt 0) ;;
  current_items <- obj_get search_data "items" (JArr []) ;;
  current_offset <- obj_get search_data "offset" (JInt 0) ;;
  current_limit <- obj_get search_data "limit" (JInt 3) ;;
  results_start <- int_binop Z.add current_offset (JInt 1) ;;
  left_ <- int_binop Z.sub total_results current_offset ;;
  right_ <- int_binop Z.add current_offset (JInt 3) ;;
  let results_end := Z.min left_ right_ in
  items <- py_iter current_items ;;
  items_images <- resolve_images items ;;
  has_more_results <- int_lt (JInt results_end) total_results ;;
  next_offset <- (if has_more_results : bool
                  then n <- int_binop Z.add current_offset current_limit ;; Return (Some n)
                  else Return None) ;;
  shown <- py_len current_items ;;
  let response_instructions :=
    SummaryPrompt
      {| s_total_results := total_results;
         s_results_start := results_start;
         s_results_end := results_end;
         s_batch_size := shown;
         s_has_more := has_more_results;
         s_next_offset := next_offset;
         s_current_limit := current_limit;
         s_search_data := search_data;
         s_items_images := items_images;
         s_user_query := user_query |} in
  let responses := [text_content response_instructions] in
  if has_more_results then
    more <- int_binop Z.sub total_results (JInt results_end) ;;
    let continuation_prompt :=
      ContinuationPrompt
        {| c_more := more; c_current_limit := current_limit;
           c_next_offset := next_offset |} in
    Return (responses ++ [text_content continuation_prompt])%list
  else Return responses.

Definition handle_generate_response (arguments : dict) : result (list TextContent) :=
  if negb (truthy (JObj arguments)) then
    Return [{| text := Chars "No arguments provided"; is_error := true |}]
  else
    let user_query := get arguments "user_query" in
    if negb (truthy user_query) then
      Return [{| text := Chars "Missing user_query parameter"; is_error := true |}]
    else
      try_except
        (let search_params := store (filter keeps_for_search arguments) "limit" (JInt 3) in
         search_result <- handle_search_nli search_params ;;
         match (p <- first_payload search_result ;; json_loads (text p)) with
         | Raise JSONDecodeError =>
             Return (error_text "Failed to parse search results: " JSONDecodeError)
         | Raise e =>
             Return (error_text "Unexpected error processing search results: " e)
         | Return search_data => compose_response user_query search_data
         end)
        (fun e => Return (error_text "Error processing query: " e)).

Definition handle_process_natural_query (arguments : dict) : result (list TextContent) :=
  Return [text_content (QueryPrompt (get arguments "user_query"))].

(** ** Batch streamer *)

(** One call of [stream_batches] up to its recursive call: the completion
    report, or the report of the current batch with the offset of the next
    call. *)
Definition batch_step (user_query search_data items_images : json)
    (offset batch_size : Z) : result (TextContent * option Z) :=
  items <- obj_get search_data "items" (JArr []) ;;
  total_results <- obj_get search_data "total_results" (JInt 0) ;;
  len_items <- py_len items ;;
  if offset >=? len_items then
    Return (text_content
              (CompletePrompt {| f_len_items := len_items;
                                 f_total_results := total_results;
                                 f_user_query := user_query |}), None)
  else
    context_items <- py_getslice items offset (offset + batch_size) ;;
    let next_offset := offset + batch_size in
    let batch_start := offset + 1 in
    let batch_end := Z.min (offset + batch_size) len_items in
    Return (text_content
              (BatchPrompt {| batch_start := batch_start;
                              batch_end := batch_end;
                              b_len_items := len_items;
                              b_total_results := total_results;
                              b_context_items := context_items;
                              b_items_images := items_images;
                              b_user_query := user_query;
                              next_offset := next_offset;
                              remaining := Z.max 0 (len_items - batch_end) |}),
            Some next_offset).

(** [stream_batches] calls itself for the next batch. [depth] bounds the
    nesting of calls; [None] is a call chain deeper than that. *)
Fixpoint stream_batches (depth : nat) (user_query search_data items_images : json)
    (offset batch_size : Z) : option (result (list TextContent)) :=
  match depth with
  | O => None
  | S depth' =>
      match batch_step user_query search_data items_images offset batch_size with
      | Raise e => Some (Raise e)
      | Return (report, None) => Some (Return [report])
      | Return (report, Some next) =>
          match stream_batches depth' user_query search_data items_images next batch_size with
          | None => None
          | Some (Raise e) => Some (Raise e)
          | Some (Return more_responses) => Some (Return (report :: more_responses))
          end
      end
  end.

(** ** Stream handler *)

Definition add_stream (fmt doc : json) (kind key : string) (streams : dict) : result dict :=
  if (is_str fmt kind || is_str fmt "all")%bool then
    url <- obj_get doc key JNull ;;
    Return (if truthy url then store streams kind url else streams)
  else Return streams.

Definition handle_get_stream (arguments : dict) : result (list TextContent) :=
  itemId <- subscript arguments "itemId" ;;
  let fmt := get_default arguments "format" (JStr "all") in
  let params :=
    [ ("api_key", JStr NLI_API_KEY);
      ("query", JStr ("RecordId,exact," ++ py_str itemId));
      ("format", JStr "json"); ("rows", JInt 1); ("start", JInt 0) ] in
  try_except
    (response <- responded (search_get params) ;;
     data <- response_json response ;;
     items <- obj_get data "items" (JArr []) ;;
     if negb (truthy items) then Return [text_content (Chars "Item not found")]
     else
       doc <- py_first items ;;
       streams <- add_stream fmt doc "mp4" "stream_url_mp4" [] ;;
       streams <- add_stream fmt doc "hls" "stream_url_hls" streams ;;
       streams <- add_stream fmt doc "audio" "audio_url" streams ;;
       Return [text_content (Dumped (JObj streams))])
    (fun e => Return (error_text "Error retrieving streams: " e)).

(** ** Tool dispatcher *)

(** A call [stream_batches(a1, ..., an)] with positional arguments only.
    The five parameters have no default, so any other number of arguments
    is a [TypeError]; [offset] and [batch_size] are integers by their
    annotation. *)
Definition call_stream_batches (depth : nat) (args : list json)
  : option (result (list TextContent)) :=
  match args with
  | [user_query; search_data; items_images; offset; batch_size] =>
      match as_int offset, as_int batch_size with
      | Some o, Some b => stream_batches depth user_query search_data items_images o b
      | _, _ => Some (Raise TypeError)
      end
  | _ => Some (Raise TypeError)
  end.

Definition handle_call_tool (depth : nat) (name : string) (arguments : dict)
  : option (result (list TextContent)) :=
  if String.eqb name "process_natural_query" then
    Some (handle_process_natural_query arguments)
  else if String.eqb name "generate_response" then
    Some (handle_generate_response arguments)
  else if String.eqb name "stream_batches" then
    call_stream_batches depth [JObj arguments]
  else if String.eqb name "get_image" then
    Some (handle_get_image arguments)
  else if String.eqb name "get_manifest" then
    Some (handle_get_manifest arguments)
  else if String.eqb name "get_stream" then
    Some (handle_get_stream arguments)
  else Some (Raise (ValueError ("Unknown tool: " ++ name))).

(** ** Notions used in the statements *)

(** The text the normaliser hands to [json.loads]: the string itself, or
    [str()] of the first element of the list, when the marker is found
    there. *)
Definition marked_text (value : json) : option string :=
  match value with
  | JStr s => if contains s "@value" then Some s else None
  | JArr (first :: _) =>
      match py_in "@value" first with
      | Return true => Some (py_str first)
      | _ => None
      end
  | _ => None
  end.

(** [json.loads] settles a text when it returns a value or finds the text
    malformed, and raises nothing else. *)
Definition decoder_settles (s : string) : Prop :=
  forall e, json_loads_str (replace_quotes s) = Raise e -> e = JSONDecodeError.

Definition manifest_url (recordId : json) : string :=
  BASE_IIIF_IMAGE ++ "/" ++ py_str recordId ++ "/manifest".

(** The payload of [handle_get_manifest] for each outcome of the fetch. *)
Definition manifest_payload (o : http_outcome) : TextContent :=
  match o with
  | Unreachable e => text_content (Chars ("Error retrieving manifest: " ++ exn_str e))
  | Refused e => text_content (Chars ("Error retrieving manifest: " ++ exn_str e))
  | Replied Garbage =>
      text_content (Chars ("Error retrieving manifest: " ++ exn_str JSONDecodeError))
  | Replied (Document data) => text_content (Dumped data)
  end.

Definition fetch_failed (o : http_outcome) : bool :=
  match o with
  | Replied (Document _) => false
  | _ => true
  end.

End Program.

(** ** A runtime with scripted replies *)

(** The program run against replies given in advance. Its decoder finds
    every text malformed, and objects and exceptions print as fixed
    marks. *)
Definition scripted (search : dict -> http_outcome) (fetch : string -> http_outcome)
  : Runtime :=
  {| json_decode := fun _ => Raise JSONDecodeError;
     py_repr := fun _ => "<object>";
     exn_str := fun _ => "<exception>";
     NLI_API_KEY := "key";
     search_get := search;
     url_get := fetch |}.

Definition offline : Runtime :=
  scripted (fun _ => Unreachable (TransportError "offline"))
           (fun _ => Unreachable (TransportError "offline")).

Definition five_records : list json :=
  map (fun k => JObj [("id", JInt k)]) [0; 1; 2; 3; 4].

Definition bare_list_backend : Runtime :=
  scripted (fun _ => Replied (Document (JArr five_records)))
           (fun _ => Unreachable (TransportError "offline")).

Definition refusing_manifests : Runtime :=
  scripted (fun _ => Unreachable (TransportError "offline"))
           (fun _ => Refused (HTTPStatusError 404)).

(** ** Notions used in the statements about the normaliser *)

(** The raw values the normaliser handles: everything but an empty list
    and a list that starts with a number, a boolean or null. *)
Definition normalisable (v : json) : bool :=
  match v with
  | JArr [] => false
  | JArr (JNull :: _) => false
  | JArr (JBool _ :: _) => false
  | JArr (JInt _ :: _) => false
  | _ => true
  end.

(** ** Notions used in the statements about manifests *)

(** The image identifiers of a manifest document as the data model reads
    it, [sequences[0].canvases[*].images[*].resource.@id], in document
    order; an image without identifier counts with the empty one. [None] is
    a document of another shape. *)
Definition identifier_of (img : json) : option string :=
  match img with
  | JObj m =>
      match get_default m "resource" (JObj []) with
      | JObj r =>
          match get_default r "@id" (JStr "") with
          | JStr s => Some s
          | _ => None
          end
      | _ => None
      end
  | _ => None
  end.

Fixpoint identifiers_of (imgs : list json) : option (list string) :=
  match imgs with
  | [] => Some []
  | img :: rest =>
      match identifier_of img, identifiers_of rest with
      | Some s, Some ss => Some (s :: ss)
      | _, _ => None
      end
  end.

Definition canvas_identifiers (canvas : json) : option (list string) :=
  match canvas with
  | JObj m =>
      match get_default m "images" (JArr []) with
      | JArr imgs => identifiers_of imgs
      | _ => None
      end
  | _ => None
  end.

Fixpoint canvases_identifiers (canvases : list json) : option (list string) :=
  match canvases with
  | [] => Some []
  | canvas :: rest =>
      match canvas_identifiers canvas, canvases_identifiers rest with
      | Some ids, Some more => Some (ids ++ more)%list
      | _, _ => None
      end
  end.

Definition first_sequence_identifiers (manifest : json) : option (list string) :=
  match manifest with
  | JObj m =>
      match get_default m "sequences" (JArr []) with
      | JArr [] => Some []
      | JArr (JObj s :: _) =>
          match get_default s "canvases" (JArr []) with
          | JArr canvases => canvases_identifiers canvases
          | _ => None
          end
      | _ => None
      end
  | _ => None
  end.


(** The image record of the fallback tier for a selected identifier. *)
Definition selected_image (queued : string * option string) (selection : option string)
  : list ImageRecord :=
  match selection with
  | Some id => [{| recordId := Some (fst queued); title := snd queued; thumbnailUrl := id |}]
  | None => []
  end.

(** ** Notions used in the statements about batches *)

Definition batch_report (b : batch) : TextContent := text_content (BatchPrompt b).

Definition completion_report (c : completion) : TextContent :=
  text_content (CompletePrompt c).



Definition batch_items (b : batch) : list json :=
  match b_context_items b with
  | JArr l => l
  | _ => []
  end.

Definition window (b : batch) : Z * Z := (batch_start b, batch_end b).

(** The windows, each written first-last with both ends included, follow
    one another from [from] up to [upto] without gap or overlap. *)
Fixpoint tiles (from : Z) (windows : list (Z * Z)) (upto : Z) : Prop :=
  match windows with
  | [] => from = upto + 1
  | (first, last) :: rest => first = from /\ first <= last /\ tiles (last + 1) rest upto
  end.

Definition last_remaining (batches : list batch) : Z :=
  last (map remaining batches) 0.

(** ** Scripted manifests and search results *)

Definition image_json (id : string) : json :=
  JObj [("@type", JStr "oa:Annotation"); ("resource", JObj [("@id", JStr id)])].

Definition canvas_json (ids : list string) : json :=
  JObj [("@type", JStr "sc:Canvas"); ("images", JArr (map image_json ids))].

(** Two canvases, a logo on the first and a scan on the second; a second
    sequence follows, which is not looked at. *)
Definition logo_then_scan : json :=
  JObj [("@id", JStr "manifest");
        ("sequences",
         JArr [JObj [("canvases", JArr [canvas_json ["logoA.png"]; canvas_json ["real.jpg"]])];
               JObj [("canvases", JArr [canvas_json ["other.jpg"]])]])].

Definition record_without_thumbnail : json :=
  JObj [(RECORDID, JStr "990001"); (TITLE, JStr "Jerusalem, a map")].

Definition manifest_backend : Runtime :=
  scripted (fun _ => Replied (Document (JObj [("total_results", JInt 1);
                                              ("items", JArr [record_without_thumbnail])])))
           (fun _ => Replied (Document logo_then_scan)).

Definition catalogue_record (id : string) : json :=
  JObj [(RECORDID, JStr id); (TITLE, JStr ("Sheet " ++ id));
        (THUMBNAIL, JStr ("https://iiif.nli.org.il/thumbs/" ++ id ++ ".jpg"))].

Definition seven_records : list json :=
  map catalogue_record ["r1"; "r2"; "r3"; "r4"; "r5"; "r6"; "r7"].

(** A backend with seven matches that serves the page asked for with
    [start] and [rows]. *)
Definition seven_results_backend : Runtime :=
  scripted
    (fun params =>
       match as_int (get params "start"), as_int (get params "rows") with
       | Some start, Some rows =>
           Replied (Document (JObj [("total_results", JInt 7);
                                    ("items", JArr (py_slice seven_records start (start + rows)))]))
       | _, _ => Refused (HTTPStatusError 400)
       end)
    (fun _ => Refused (HTTPStatusError 404)).

Definition query_at (offset : Z) : dict :=
  [("user_query", JStr "maps of Jerusalem"); ("q", JStr "any,contains,Jerusalem");
   ("offset", JInt offset)].

(** A manifest of another shape: the identifier of its first image is a
    number. *)
Definition numbered_then_scan : json :=
  JObj [("sequences",
         JArr [JObj [("canvases",
                      JArr [JObj [("images",
                                   JArr [JObj [("resource", JObj [("@id", JInt 5)])];
                                         image_json "real.jpg"])]])]])].






(** ** Scripted batches *)

Definition twenty_five_items : list json :=
  map (fun k => JObj [("id", JInt k)])
      [1; 2; 3; 4; 5; 6; 7; 8; 9; 10; 11; 12; 13; 14; 15; 16; 17; 18; 19; 20;
       21; 22; 23; 24; 25].

Definition twenty_five_results : dict :=
  [("total_results", JInt 4312); ("items", JArr twenty_five_items)].


(** ** Notions used in the statements about the search parameters *)

(** The optional filters by the name of the argument and the name sent to
    the backend. *)
Definition filter_names : list (string * string) :=
  [ ("materialType", "material_type"); ("availabilityType", "availability_type");
    ("sortField", "sortField"); ("sortOrder", "sort_order"); ("lang", "language");
    ("creator", "creator"); ("subject", "subject"); ("publisher", "publisher");
    ("publicationYearFrom", "publication_year_from");
    ("publicationYearTo", "publication_year_to");
    ("collection", "collection"); ("contributor", "contributor");
    ("isbn", "isbn"); ("issn", "issn");
    ("dateFrom", "start_date"); ("dateTo", "end_date") ].

(** What the backend is sent for an argument: nothing for an absent or
    null one. *)
Definition forwarded (arguments : dict) (argument : string) : option json :=
  match lookup arguments argument with
  | Some JNull => None
  | Some v => Some v
  | None => None
  end.

Definition filtered_query : dict :=
  [("q", JStr "any,contains,Jerusalem"); ("creator", JStr "Bialik");
   ("subject", JNull); ("dateFrom", JStr "1900"); ("limit", JInt 10)].

(** The total and the items of a backend reply of one of the two expected
    shapes: a bare list, or an object whose [items] is a list. *)
Definition backend_items (data : json) : option (json * list json) :=
  match data with
  | JArr l => Some (JInt (Z.of_nat (List.length l)), l)
  | JObj m =>
      match get_default m "items" (JArr []) with
      | JArr l => Some (get_default m "total_results" (JInt 0), l)
      | _ => None
      end
  | _ => None
  end.

(** A backend with seven matches that applies [start] and [rows] itself,
    asked for the second page. *)
Definition second_page : dict :=
  [("q", JStr "any,contains,Jerusalem"); ("offset", JInt 3); ("limit", JInt 3)].

Definition unreachable_backend : Runtime :=
  scripted (fun _ => Unreachable (TransportError "connection refused"))
           (fun _ => Unreachable (TransportError "connection refused")).

(** The arguments with which the composer runs the search. *)
Definition composer_search (arguments : dict) : dict :=
  store (filter keeps_for_search arguments) "limit" (JInt 3).

(** ** Notions used in the statements about resumed batches *)

(** A batch report is sound for a list, a batch size and a lower offset:
    it shows between one and [batch_size] items, as many as its window
    [batch_start .. batch_end] has places, the window lies within the list
    after the offset, and the continuation is [batch_size] past its
    start. *)
Definition sound_batch (items : list json) (batch_size from : Z) (b : batch) : Prop :=
  from < batch_start b
  /\ batch_end b <= Z.of_nat (List.length items)
  /\ Z.of_nat (List.length (batch_items b)) = batch_end b - batch_start b + 1
  /\ 1 <= Z.of_nat (List.length (batch_items b)) <= batch_size
  /\ batch_items b = py_slice items (batch_start b - 1) (batch_end b)
  /\ next_offset b = batch_start b - 1 + batch_size.

(** ** Notions used in the statements about streams and images *)

(** Whether the format asks for a kind of stream. *)
Definition wanted (fmt : json) (kind : string) : bool :=
  (is_str fmt kind || is_str fmt "all")%bool.

(** The entry of a kind of stream in the answer: there when the kind is
    asked for and the document has a URL for it. *)
Definition stream_entry (fmt : json) (doc : dict) (kind key : string) : dict :=
  if (wanted fmt kind && truthy (get doc key))%bool then [(kind, get doc key)] else [].

Definition default_image_url (identifier : string) : string :=
  BASE_IIIF_IMAGE ++ "/" ++ identifier ++ "/full/max/0.0/default.jpg".

Definition film_document : dict :=
  [("title", JStr "Newsreel"); ("stream_url_mp4", JStr "https://media.nli.org.il/1.mp4");
   ("stream_url_hls", JStr ""); ("audio_url", JStr "https://media.nli.org.il/1.mp3")].

Definition film_backend : Runtime :=
  scripted (fun _ => Replied (Document (JObj [("items", JArr [JObj film_document])])))
           (fun _ => Replied Garbage).

(** ** The tools listed *)

(** [handle_list_tools], by the name of each tool and the keys its input
    schema requires. *)
Record Tool : Type := {
  tool_name : string;
  tool_required : list string
}.

Definition handle_list_tools : list Tool :=
  [ {| tool_name := "process_natural_query"; tool_required := ["user_query"] |};
    {| tool_name := "generate_response"; tool_required := ["user_query"; "q"] |};
    {| tool_name := "stream_batches";
       tool_required := ["user_query"; "search_data"; "items_images"] |};
    {| tool_name := "get_image"; tool_required := ["identifier"] |};
    {| tool_name := "get_manifest"; tool_required := ["recordId"] |};
    {| tool_name := "get_stream"; tool_required := ["itemId"] |} ].

(** ** Notions used in the statements about the selection of an image *)

(** The claim's criterion, spelled out: the ways to write each ending and
    the word in upper and lower case. *)
Definition jpg_spellings : list string :=
  [".jpg"; ".jpG"; ".jPg"; ".jPG"; ".Jpg"; ".JpG"; ".JPg"; ".JPG"].

Definition png_spellings : list string :=
  [".png"; ".pnG"; ".pNg"; ".pNG"; ".Png"; ".PnG"; ".PNg"; ".PNG"].

Definition logo_spellings : list string :=
  ["logo"; "logO"; "loGo"; "loGO"; "lOgo"; "lOgO"; "lOGo"; "lOGO";
   "Logo"; "LogO"; "LoGo"; "LoGO"; "LOgo"; "LOgO"; "LOGo"; "LOGO"].

Definition ends_in (s : string) (endings : list string) : Prop :=
  exists stem ending, In ending endings /\ s = stem ++ ending.

Definition has_inside (s : string) (words : list string) : Prop :=
  exists before word after, In word words /\ s = before ++ word ++ after.

(** An identifier is acceptable when it ends in .jpg or .png and has no
    logo in it, in any mix of upper and lower case. *)
Definition acceptable (id : string) : Prop :=
  ends_in id (jpg_spellings ++ png_spellings)%list /\ ~ has_inside id logo_spellings.

(** [selection] is the first acceptable identifier of [ids], or nothing
    when none is acceptable. *)
Definition first_acceptable (ids : list string) (selection : option string) : Prop :=
  match selection with
  | Some id =>
      exists before after,
        ids = (before ++ id :: after)%list
        /\ acceptable id
        /\ Forall (fun other => ~ acceptable other) before
  | None => Forall (fun other => ~ acceptable other) ids
  end.

(** Canvases whose identifiers are written in upper case here and there. *)
Definition mixed_case_manifest : json :=
  JObj [("sequences",
         JArr [JObj [("canvases",
                      JArr [canvas_json ["Library-LOGO.PNG"; "notes.txt"];
                            canvas_json ["Scan_0001.JPG"; "scan_0002.png"]])]])].

Definition mixed_case_backend : Runtime :=
  scripted (fun _ => Unreachable (TransportError "offline"))
           (fun _ => Replied (Document mixed_case_manifest)).

(** ** Runtimes with a scripted decoder *)

(** No network, and a decoder given in advance. *)
Definition decoding (decode : string -> result json) : Runtime :=
  {| json_decode := decode;
     py_repr := fun _ => "<object>";
     exn_str := fun _ => "<exception>";
     NLI_API_KEY := "key";
     search_get := fun _ => Unreachable (TransportError "offline");
     url_get := fun _ => Unreachable (TransportError "offline") |}.

Definition creator_field : string := "{'@value': ' Bialik '}".

(** A decoder that knows the one value-object of [creator_field]. *)
Definition creator_decoder : Runtime :=
  decoding (fun s => if String.eqb s (replace_quotes creator_field)
                     then Return (JObj [("@value", JStr " Bialik ")])
                     else Raise JSONDecodeError).

(** A decoder that meets an integer literal of too many digits. *)
Definition overlong_decoder : Runtime :=
  decoding (fun _ => Raise (ValueError "Exceeds the limit for integer string conversion")).

(** * Properties *)

Section SearchProxy.
Context `{Runtime}.

Lemma client_slice_ints (items : list json) (lo n : Z) :
  client_slice (JArr items) (JInt lo) (JInt n) = Return (JArr (py_slice items lo (lo + n))).
Proof. reflexivity. Qed.

Lemma client_slice_None (items offset : json) :
  client_slice items offset JNull = Raise TypeError.
Proof. unfold client_slice. destruct (as_int offset); reflexivity. Qed.

(** C9. A backend reply that is a bare list of five items, searched with
    offset 2 and limit 2, gives the envelope with [total_results] 5 and
    the items at indices 2 and 3, in that order. *)
Theorem search_bare_list_window (arguments params : dict) (q x0 x1 x2 x3 x4 : json) :
  lookup arguments "q" = Some q ->
  lookup arguments "offset" = Some (JInt 2) ->
  lookup arguments "limit" = Some (JInt 2) ->
  search_params arguments q = Return params ->
  search_get params = Replied (Document (JArr [x0; x1; x2; x3; x4])) ->
  handle_search_nli arguments =
    Return [text_content
              (Dumped (JObj [("total_results", JInt 5); ("items", JArr [x2; x3])]))].
Proof.
  intros Hq Hoff Hlim Hparams Hreply.
  unfold handle_search_nli, subscript, get, get_default.
  rewrite Hq, Hoff, Hlim. cbn [bind].
  rewrite Hparams. cbn [bind].
  rewrite Hreply. reflexivity.
Qed.

(** C5. With no limit among the arguments the sum [offset + limit] is
    refused, and the search returns the error text instead of the items
    of the backend. *)
Theorem search_without_limit_is_an_error (arguments params : dict) (q data : json) :
  lookup arguments "q" = Some q ->
  lookup arguments "limit" = None ->
  search_params arguments q = Return params ->
  search_get params = Replied (Document data) ->
  (exists l, data = JArr l) \/ (exists m, data = JObj m) ->
  handle_search_nli arguments = Return (error_text "Error searching NLI: " TypeError).
Proof.
  intros Hq Hlim Hparams Hreply Hshape.
  unfold handle_search_nli, subscript, get, get_default.
  rewrite Hq, Hlim. cbn [bind].
  rewrite Hparams. cbn [bind].
  rewrite Hreply. cbn [responded response_json bind].
  destruct Hshape as [[l ->] | [m ->]]; cbn [search_envelope obj_get bind];
    rewrite client_slice_None; reflexivity.
Qed.

End SearchProxy.

Lemma search_bare_list_window_witness :
  handle_search_nli (H := bare_list_backend)
    [("q", JStr "any,contains,x"); ("offset", JInt 2); ("limit", JInt 2)] =
  Return [text_content
            (Dumped (JObj [("total_results", JInt 5);
                           ("items", JArr [JObj [("id", JInt 2)]; JObj [("id", JInt 3)]])]))].
Proof.
  eapply (search_bare_list_window (H := bare_list_backend)); reflexivity.
Defined.

Lemma search_without_limit_is_an_error_witness :
  handle_search_nli (H := bare_list_backend) [("q", JStr "any,contains,x")] =
  Return (error_text (H := bare_list_backend) "Error searching NLI: " TypeError).
Proof.
  eapply (search_without_limit_is_an_error (H := bare_list_backend));
    try reflexivity.
  left. exists five_records. reflexivity.
Defined.

Section Dispatch.
Context `{Runtime}.

(** C2. The dispatcher hands the whole argument mapping to
    [stream_batches] as its one positional argument, so the call lacks four
    of the five parameters: for every argument mapping the [TypeError]
    leaves the dispatcher and no text payload is returned. *)
Theorem dispatch_stream_batches_raises (depth : nat) (arguments : dict) :
  handle_call_tool depth "stream_batches" arguments = Some (Raise TypeError).
Proof. reflexivity. Qed.

Lemma dispatch_get_manifest_missing_key (depth : nat) (arguments : dict) :
  lookup arguments "recordId" = None ->
  handle_call_tool depth "get_manifest" arguments = Some (Raise (KeyError "recordId")).
Proof.
  intros Hmiss. cbn. unfold handle_get_manifest, subscript. rewrite Hmiss. reflexivity.
Qed.

Lemma dispatch_get_image_missing_key (depth : nat) (arguments : dict) :
  lookup arguments "identifier" = None ->
  handle_call_tool depth "get_image" arguments = Some (Raise (KeyError "identifier")).
Proof.
  intros Hmiss. cbn. unfold handle_get_image, subscript. rewrite Hmiss. reflexivity.
Qed.

(** The search handler is behind no tool name. *)
Lemma dispatch_search_unknown (depth : nat) (arguments : dict) :
  handle_call_tool depth "search_nli" arguments =
  Some (Raise (ValueError "Unknown tool: search_nli")).
Proof. reflexivity. Qed.

End Dispatch.

Section ManifestHandler.
Context `{Runtime}.

Lemma handle_get_manifest_returns (arguments : dict) (recordId : json) :
  lookup arguments "recordId" = Some recordId ->
  handle_get_manifest arguments =
    Return [manifest_payload (url_get (manifest_url recordId))].
Proof.
  intros Hid. unfold handle_get_manifest, subscript. rewrite Hid. cbn [bind].
  fold (manifest_url recordId).
  destruct (url_get (manifest_url recordId)) as [e | e | [ | data]]; reflexivity.
Qed.

Lemma error_text_is_no_json (detail : string) :
  json_loads (Chars ("Error retrieving manifest: " ++ detail)) = Raise JSONDecodeError.
Proof. reflexivity. Qed.

Lemma failed_payload_is_no_json (o : http_outcome) :
  fetch_failed o = true ->
  json_loads (text (manifest_payload o)) = Raise JSONDecodeError.
Proof.
  destruct o as [e | e | [ | data]]; intros Hf; try discriminate; reflexivity.
Qed.

Lemma manifest_results_all_return (queue : list (string * option string)) :
  Forall (fun r => exists p, r = Return [p]) (manifest_results queue).
Proof.
  unfold manifest_results. apply Forall_map, Forall_forall.
  intros queued _. eexists.
  apply handle_get_manifest_returns with (recordId := JStr (fst queued)).
  cbn. reflexivity.
Qed.

(** C10. [handle_get_manifest] raises for no record identifier and no
    behaviour of the fetch: a transport failure, a refused status and an
    undecodable body all come back as the text [Error retrieving
    manifest: ...]. So no result gathered for the fan-out is an exception,
    and a record whose fetch failed yields no image because its error text
    is refused by [json.loads] inside the [try] of that record. *)
Theorem manifest_failures_are_text (arguments : dict) (recordId : json) :
  lookup arguments "recordId" = Some recordId ->
  let outcome := url_get (manifest_url recordId) in
  handle_get_manifest arguments = Return [manifest_payload outcome]
  /\ (fetch_failed outcome = true ->
      exists detail,
        text (manifest_payload outcome) = Chars ("Error retrieving manifest: " ++ detail)
        /\ json_loads (text (manifest_payload outcome)) = Raise JSONDecodeError
        /\ manifest_image [manifest_payload outcome] = Raise JSONDecodeError
        /\ forall queued,
             fallback_image queued (handle_get_manifest arguments) = [])
  /\ (forall queue, Forall (fun r => exists p, r = Return [p]) (manifest_results queue)).
Proof.
  intros Hid outcome.
  pose proof (handle_get_manifest_returns arguments recordId Hid) as Hret.
  fold outcome in Hret.
  split; [exact Hret | split; [ | exact manifest_results_all_return]].
  intros Hfail.
  assert (Hjson : json_loads (text (manifest_payload outcome)) = Raise JSONDecodeError)
    by (apply failed_payload_is_no_json; exact Hfail).
  assert (Himg : manifest_image [manifest_payload outcome] = Raise JSONDecodeError).
  { unfold manifest_image. cbn [first_payload bind]. rewrite Hjson. reflexivity. }
  destruct outcome as [e | e | [ | data]]; try discriminate;
    eexists; (split; [reflexivity | ]); (split; [exact Hjson | ]);
    (split; [exact Himg | ]); intros queued; rewrite Hret;
    unfold fallback_image; rewrite Himg; reflexivity.
Qed.

End ManifestHandler.

Lemma manifest_failures_are_text_witness :
  handle_get_manifest (H := refusing_manifests) [("recordId", JStr "990001")] =
  Return [text_content (Chars "Error retrieving manifest: <exception>")].
Proof.
  apply (proj1 (manifest_failures_are_text (H := refusing_manifests)
                  [("recordId", JStr "990001")] (JStr "990001") eq_refl)).
Defined.

(** ** Results and binds *)

Lemma bind_Return {A B} (r : result A) (f : A -> result B) (b : B) :
  bind r f = Return b -> exists a, r = Return a /\ f a = Return b.
Proof. destruct r as [a | e]; cbn; intros Hb; [eauto | discriminate]. Qed.

Ltac bind_inv H :=
  let a := fresh "v" in
  let Ha := fresh "Hv" in
  apply bind_Return in H; destruct H as (a & Ha & H).

Section Normaliser.
Context `{Runtime}.

Lemma extract_value_from_json_settled (s : string) :
  decoder_settles s -> exists v, extract_value_from_json (JStr s) = Return v.
Proof.
  intros Hsettles. unfold extract_value_from_json.
  destruct (json_loads_str (replace_quotes s)) as [j | e] eqn:Hloads; cbn.
  - destruct j; eauto. destruct (lookup m "@value"); eauto.
  - rewrite (Hsettles e Hloads). cbn. eauto.
Qed.

(** The [except] names [JSONDecodeError] alone: what else [json.loads]
    raises leaves the function. *)
Lemma extract_value_from_json_raises (s : string) (e : exn) :
  json_loads_str (replace_quotes s) = Raise e ->
  is_JSONDecodeError e = false ->
  extract_value_from_json (JStr s) = Raise e.
Proof.
  intros Hloads Hother. unfold extract_value_from_json.
  rewrite Hloads. cbn. rewrite Hother. reflexivity.
Qed.

Lemma get_simple_field_absent (m : dict) (key : string) :
  get m key = JNull -> get_simple_field (JObj m) key = Return None.
Proof.
  intros Hv. unfold get_simple_field; cbn.
  unfold get in Hv. rewrite Hv. reflexivity.
Qed.

Lemma get_simple_field_empty_string (m : dict) (key : string) :
  get m key = JStr "" -> get_simple_field (JObj m) key = Return (Some "").
Proof.
  intros Hv. unfold get_simple_field; cbn.
  unfold get in Hv. rewrite Hv. reflexivity.
Qed.

(** The slip on lists: the first element is taken and searched unguarded. *)
Lemma get_simple_field_empty_list (m : dict) (key : string) :
  get m key = JArr [] -> get_simple_field (JObj m) key = Raise IndexError.
Proof.
  intros Hv. unfold get_simple_field; cbn.
  unfold get in Hv. rewrite Hv. reflexivity.
Qed.

Lemma get_simple_field_number_first (m : dict) (key : string) (z : Z) (rest : list json) :
  get m key = JArr (JInt z :: rest) -> get_simple_field (JObj m) key = Raise TypeError.
Proof.
  intros Hv. unfold get_simple_field; cbn.
  unfold get in Hv. rewrite Hv. reflexivity.
Qed.

Lemma get_simple_field_scalar_first (m : dict) (key : string) (first : json)
    (rest : list json) :
  get m key = JArr (first :: rest) ->
  normalisable (JArr (first :: rest)) = false ->
  get_simple_field (JObj m) key = Raise TypeError.
Proof.
  intros Hv Hn. unfold get_simple_field; cbn [obj_get bind].
  unfold get in Hv. rewrite Hv.
  destruct first; try discriminate; reflexivity.
Qed.

(** The same on a marked value: an exception of [json.loads] that is not
    a [JSONDecodeError] leaves the normaliser. *)
Lemma get_simple_field_decoder_raises (m : dict) (key s : string) (e : exn) :
  marked_text (get m key) = Some s ->
  json_loads_str (replace_quotes s) = Raise e ->
  is_JSONDecodeError e = false ->
  get_simple_field (JObj m) key = Raise e.
Proof.
  intros Hmarked Hloads Hother. unfold get_simple_field. cbn [obj_get bind].
  unfold get in Hmarked. destruct (get_default m key JNull) as [ | | | t | l | ];
    try discriminate; cbn [marked_text] in Hmarked.
  - destruct (contains t "@value"); [ | discriminate].
    inversion Hmarked; subst t. cbn [py_str].
    rewrite (extract_value_from_json_raises _ _ Hloads Hother). reflexivity.
  - destruct l as [ | first rest]; [discriminate | ]. cbn [py_first bind].
    destruct (py_in "@value" first) as [[ | ] | ]; try discriminate.
    inversion Hmarked; subst s. cbn [bind].
    rewrite (extract_value_from_json_raises _ _ Hloads Hother). reflexivity.
Qed.

(** C4, as the code has it. On every record and key whose raw value is
    absent, null, a number, a boolean, a string, an object, or a list
    that starts with a string, a list or an object, [get_simple_field]
    returns a string or null and does not raise, as long as [json.loads]
    settles the text of a marked value: it returns, or it finds the text
    malformed. Null comes back exactly for an absent or null value; the
    empty string comes back as the empty string. *)
Theorem get_simple_field_returns (m : dict) (key : string) :
  normalisable (get m key) = true ->
  (forall s, marked_text (get m key) = Some s -> decoder_settles s) ->
  exists r,
    get_simple_field (JObj m) key = Return r
    /\ (r = None <-> get m key = JNull)
    /\ (get m key = JStr "" -> r = Some "").
Proof.
  intros Hn Hsettles. unfold get_simple_field. cbn [obj_get bind].
  unfold get in *. set (value := get_default m key JNull) in *.
  destruct value as [ | b | z | s | l | o] eqn:Hvalue.
  - eexists; repeat split; eauto; discriminate.
  - eexists; repeat split; eauto; discriminate.
  - eexists; repeat split; eauto; discriminate.
  - cbn [marked_text] in Hsettles. destruct (contains s "@value") eqn:Hmark.
    + destruct (extract_value_from_json_settled _ (Hsettles s eq_refl)) as [v Hv].
      cbn [py_str]. rewrite Hv. cbn. eexists; repeat split; eauto; try discriminate.
      intros Hs. inversion Hs; subst. discriminate.
    + eexists; repeat split; eauto; try discriminate.
      intros Hs. inversion Hs; subst. reflexivity.
  - destruct l as [ | first rest]; [discriminate | ].
    cbn [py_first bind]. cbn [marked_text] in Hsettles.
    destruct first as [ | b | z | s | l' | o]; try discriminate;
      cbn [py_in bind] in *.
    + destruct (contains s "@value").
      * destruct (extract_value_from_json_settled _ (Hsettles _ eq_refl)) as [v Hv].
        rewrite Hv. cbn. eexists; repeat split; eauto; discriminate.
      * eexists; repeat split; eauto; discriminate.
    + destruct (existsb _ l').
      * destruct (extract_value_from_json_settled _ (Hsettles _ eq_refl)) as [v Hv].
        rewrite Hv. cbn. eexists; repeat split; eauto; discriminate.
      * eexists; repeat split; eauto; discriminate.
    + destruct (existsb _ o).
      * destruct (extract_value_from_json_settled _ (Hsettles _ eq_refl)) as [v Hv].
        rewrite Hv. cbn. eexists; repeat split; eauto; discriminate.
      * eexists; repeat split; eauto; discriminate.
  - eexists; repeat split; eauto; discriminate.
Qed.

End Normaliser.

Lemma get_simple_field_returns_witness :
  exists r,
    get_simple_field (H := creator_decoder) (JObj [(TITLE, JStr creator_field)]) TITLE
    = Return r
    /\ (r = None <-> get [(TITLE, JStr creator_field)] TITLE = JNull)
    /\ (get [(TITLE, JStr creator_field)] TITLE = JStr "" -> r = Some "").
Proof.
  apply (get_simple_field_returns (H := creator_decoder)
           [(TITLE, JStr creator_field)] TITLE).
  - reflexivity.
  - intros s Hmarked e Hraise. vm_compute in Hmarked. inversion Hmarked; subst s.
    vm_compute in Hraise. discriminate.
Defined.

(** The marked value of [creator_field] read, and the same field under a
    decoder that raises a [ValueError]. *)
Lemma marked_value_examples :
  get_simple_field (H := creator_decoder) (JObj [(TITLE, JStr creator_field)]) TITLE
    = Return (Some "Bialik")
  /\ get_simple_field (H := overlong_decoder) (JObj [(TITLE, JStr creator_field)]) TITLE
     = Raise (ValueError "Exceeds the limit for integer string conversion").
Proof. split; reflexivity. Qed.

(** C4 as stated fails: an empty string is a raw value that is empty, and
    it is returned as the empty string, not as null. *)
Lemma empty_string_is_not_null :
  get_simple_field (H := offline) (JObj [(TITLE, JStr "")]) TITLE = Return (Some "")
  /\ get_simple_field (H := offline) (JObj [(TITLE, JStr "")]) TITLE <> Return None.
Proof. split; [reflexivity | discriminate]. Qed.

(** ** Prefixes, suffixes and case *)

Lemma startswith_spec (s p : string) :
  startswith s p = true <-> exists rest, s = p ++ rest.
Proof.
  revert s. induction p as [ | a p' IH]; intros s.
  - destruct s; cbn; split; eauto.
  - destruct s as [ | b s']; cbn.
    + split; [discriminate | intros [rest Hrest]; discriminate].
    + rewrite andb_true_iff, IH. split.
      * intros [Hab [rest ->]]. apply Ascii.eqb_eq in Hab. subst b. eauto.
      * intros [rest Hrest]. inversion Hrest; subst.
        split; [apply Ascii.eqb_refl | eauto].
Qed.

Lemma endswith_spec (s p : string) :
  endswith s p = true <-> exists stem, s = stem ++ p.
Proof.
  split.
  - induction s as [ | c r IH].
    + cbn [endswith]. rewrite orb_false_r. intros Heq. apply String.eqb_eq in Heq.
      exists "". exact Heq.
    + cbn [endswith]. rewrite orb_true_iff. intros [Heq | Hrest].
      * apply String.eqb_eq in Heq. exists "". exact Heq.
      * destruct (IH Hrest) as [stem ->]. exists (String c stem). reflexivity.
  - intros [stem ->]. induction stem as [ | c stem IH].
    + cbn [append]. destruct p; cbn [endswith]; rewrite String.eqb_refl; reflexivity.
    + cbn [append endswith]. rewrite IH. apply orb_true_r.
Qed.

Lemma contains_spec (s p : string) :
  contains s p = true <-> exists before after, s = before ++ p ++ after.
Proof.
  split.
  - induction s as [ | c r IH].
    + cbn [contains]. rewrite orb_false_r. intros Hstart.
      apply startswith_spec in Hstart. destruct Hstart as [rest ->].
      exists "", rest. reflexivity.
    + cbn [contains]. rewrite orb_true_iff. intros [Hstart | Hrest].
      * apply startswith_spec in Hstart. destruct Hstart as [rest ->].
        exists "", rest. reflexivity.
      * destruct (IH Hrest) as (before & after & ->).
        exists (String c before), after. reflexivity.
  - intros (before & after & ->). induction before as [ | c before IH].
    + cbn [append].
      assert (Hstart : startswith (p ++ after) p = true)
        by (apply startswith_spec; eauto).
      destruct (p ++ after); cbn [contains]; rewrite Hstart; reflexivity.
    + cbn [append contains]. rewrite IH. apply orb_true_r.
Qed.

Lemma lower_app (a b : string) : lower (a ++ b) = lower a ++ lower b.
Proof. induction a as [ | c a IH]; cbn; [reflexivity | rewrite IH; reflexivity]. Qed.

Lemma lower_split (s x y : string) :
  lower s = x ++ y -> exists a b, s = a ++ b /\ lower a = x /\ lower b = y.
Proof.
  revert s. induction x as [ | c x IH]; intros s Hs.
  - exists "", s. auto.
  - destruct s as [ | c0 s0]; [discriminate | ]. cbn in Hs. inversion Hs as [[Hc Hrest]].
    destruct (IH _ Hrest) as (a & b & -> & Ha & Hb).
    exists (String c0 a), b. cbn. rewrite Ha. auto.
Qed.

(** The characters that fold to a letter of the endings and of the word:
    the letter and its capital, and the dot alone. *)
Ltac by_character c :=
  destruct c as [[ | ] [ | ] [ | ] [ | ] [ | ] [ | ] [ | ] [ | ]];
  vm_compute; intros Hc; try discriminate Hc; auto.

Lemma folds_to_dot (c : ascii) : lower_char c = "."%char -> c = "."%char.
Proof. by_character c. Qed.

Lemma folds_to_j (c : ascii) : lower_char c = "j"%char -> c = "j"%char \/ c = "J"%char.
Proof. by_character c. Qed.

Lemma folds_to_p (c : ascii) : lower_char c = "p"%char -> c = "p"%char \/ c = "P"%char.
Proof. by_character c. Qed.

Lemma folds_to_g (c : ascii) : lower_char c = "g"%char -> c = "g"%char \/ c = "G"%char.
Proof. by_character c. Qed.

Lemma folds_to_n (c : ascii) : lower_char c = "n"%char -> c = "n"%char \/ c = "N"%char.
Proof. by_character c. Qed.

Lemma folds_to_l (c : ascii) : lower_char c = "l"%char -> c = "l"%char \/ c = "L"%char.
Proof. by_character c. Qed.

Lemma folds_to_o (c : ascii) : lower_char c = "o"%char -> c = "o"%char \/ c = "O"%char.
Proof. by_character c. Qed.

Ltac four_characters w H :=
  destruct w as [ | c1 [ | c2 [ | c3 [ | c4 [ | c5 w]]]]];
  cbn [lower] in H; try discriminate H;
  injection H as H1 H2 H3 H4.

Ltac among_spellings := cbn; repeat first [left; reflexivity | right].

Lemma lower_is_jpg (w : string) : lower w = ".jpg" <-> In w jpg_spellings.
Proof.
  split.
  - intros Hw. four_characters w Hw.
    apply folds_to_dot in H1. apply folds_to_j in H2.
    apply folds_to_p in H3. apply folds_to_g in H4.
    destruct H2, H3, H4; subst; among_spellings.
  - intros Hin. cbn in Hin.
    repeat (destruct Hin as [<- | Hin]; [reflexivity | ]). contradiction.
Qed.

Lemma lower_is_png (w : string) : lower w = ".png" <-> In w png_spellings.
Proof.
  split.
  - intros Hw. four_characters w Hw.
    apply folds_to_dot in H1. apply folds_to_p in H2.
    apply folds_to_n in H3. apply folds_to_g in H4.
    destruct H2, H3, H4; subst; among_spellings.
  - intros Hin. cbn in Hin.
    repeat (destruct Hin as [<- | Hin]; [reflexivity | ]). contradiction.
Qed.

Lemma lower_is_logo (w : string) : lower w = "logo" <-> In w logo_spellings.
Proof.
  split.
  - intros Hw. four_characters w Hw.
    apply folds_to_l in H1. apply folds_to_o in H2.
    apply folds_to_g in H3. apply folds_to_o in H4.
    destruct H1, H2, H3, H4; subst; among_spellings.
  - intros Hin. cbn in Hin.
    repeat (destruct Hin as [<- | Hin]; [reflexivity | ]). contradiction.
Qed.

Lemma ends_lowered (s ending : string) (spellings : list string) :
  (forall w, lower w = ending <-> In w spellings) ->
  endswith (lower s) ending = true <-> ends_in s spellings.
Proof.
  intros Hspell. rewrite endswith_spec. split.
  - intros [stem Hstem]. apply lower_split in Hstem.
    destruct Hstem as (a & b & -> & _ & Hb). exists a, b.
    split; [apply Hspell; exact Hb | reflexivity].
  - intros (stem & w & Hw & ->). exists (lower stem).
    rewrite lower_app. f_equal. apply Hspell. exact Hw.
Qed.

Lemma contains_lowered (s word : string) (spellings : list string) :
  (forall w, lower w = word <-> In w spellings) ->
  contains (lower s) word = true <-> has_inside s spellings.
Proof.
  intros Hspell. rewrite contains_spec. split.
  - intros (before & after & Hs). apply lower_split in Hs.
    destruct Hs as (a & rest & -> & _ & Hrest). apply lower_split in Hrest.
    destruct Hrest as (w & b & -> & Hw & _). exists a, w, b.
    split; [apply Hspell; exact Hw | reflexivity].
  - intros (a & w & b & Hw & ->). exists (lower a), (lower b).
    rewrite !lower_app. do 2 f_equal. apply Hspell. exact Hw.
Qed.

Lemma ends_in_app (s : string) (l1 l2 : list string) :
  ends_in s (l1 ++ l2)%list <-> ends_in s l1 \/ ends_in s l2.
Proof.
  unfold ends_in. split.
  - intros (stem & w & Hw & ->). apply in_app_or in Hw.
    destruct Hw; [left | right]; eauto.
  - intros [(stem & w & Hw & ->) | (stem & w & Hw & ->)];
      exists stem, w; (split; [apply in_or_app; auto | reflexivity]).
Qed.

(** The filter of the code is the criterion spelled out. *)
Lemma qualifies_acceptable (id : string) : qualifies id = true <-> acceptable id.
Proof.
  unfold qualifies, acceptable.
  rewrite andb_true_iff, orb_true_iff, negb_true_iff, ends_in_app.
  rewrite (ends_lowered id ".jpg" jpg_spellings lower_is_jpg).
  rewrite (ends_lowered id ".png" png_spellings lower_is_png).
  rewrite <- (contains_lowered id "logo" logo_spellings lower_is_logo).
  rewrite not_true_iff_false. reflexivity.
Qed.

Lemma find_first {A} (f : A -> bool) (l : list A) :
  match find f l with
  | Some x =>
      exists before after,
        l = (before ++ x :: after)%list /\ f x = true
        /\ Forall (fun y => f y = false) before
  | None => Forall (fun y => f y = false) l
  end.
Proof.
  induction l as [ | a rest IH]; cbn; [constructor | ].
  destruct (f a) eqn:Ha.
  - exists [], rest. auto.
  - destruct (find f rest) as [x | ].
    + destruct IH as (before & after & -> & Hx & Hbefore).
      exists (a :: before), after. auto.
    + constructor; assumption.
Qed.

Lemma find_first_acceptable (ids : list string) :
  first_acceptable ids (find qualifies ids).
Proof.
  pose proof (find_first qualifies ids) as Hfind. unfold first_acceptable.
  assert (Hnot : forall before,
            Forall (fun y => qualifies y = false) before ->
            Forall (fun other => ~ acceptable other) before).
  { intros before Hbefore. eapply Forall_impl; [ | exact Hbefore].
    intros y Hy Hacc. apply qualifies_acceptable in Hacc. congruence. }
  destruct (find qualifies ids) as [id | ].
  - destruct Hfind as (before & after & -> & Hid & Hbefore).
    exists before, after. split; [reflexivity | ].
    split; [apply qualifies_acceptable; exact Hid | auto].
  - auto.
Qed.

Section ImageResolution.
Context `{Runtime}.

Lemma find_app {A} (f : A -> bool) (l1 l2 : list A) :
  find f (l1 ++ l2)%list =
  match find f l1 with
  | Some x => Some x
  | None => find f l2
  end.
Proof.
  induction l1 as [ | a l1 IH]; cbn; [reflexivity | ].
  destruct (f a); [reflexivity | exact IH].
Qed.

Lemma qualifies_nonempty (s : string) : qualifies s = true -> String.eqb s "" = false.
Proof. destruct s; [discriminate | reflexivity]. Qed.


(** *** The scan finds the first qualifying identifier *)

Lemma image_id_identifier (img : json) (s : string) :
  identifier_of img = Some s -> image_id img = Return (JStr s).
Proof.
  unfold identifier_of, image_id.
  destruct img as [ | | | | | m]; try discriminate. cbn [obj_get bind].
  destruct (get_default m "resource" (JObj [])) as [ | | | | | r]; try discriminate.
  cbn [obj_get].
  destruct (get_default r "@id" (JStr "")); try discriminate.
  intros Hs; inversion Hs; reflexivity.
Qed.

Lemma first_image_find (imgs : list json) (ids : list string) :
  identifiers_of imgs = Some ids -> first_image imgs = Return (find qualifies ids).
Proof.
  revert ids. induction imgs as [ | img rest IH]; intros ids Hids; cbn in Hids.
  - inversion Hids; reflexivity.
  - destruct (identifier_of img) as [s | ] eqn:Hs; [ | discriminate].
    destruct (identifiers_of rest) as [ss | ]; [ | discriminate].
    inversion Hids; subst ids. cbn [first_image find].
    rewrite (image_id_identifier _ _ Hs). cbn [bind image_test].
    destruct (qualifies s); [reflexivity | ].
    apply IH; reflexivity.
Qed.

Lemma scan_canvases_find (canvases : list json) (ids : list string) :
  canvases_identifiers canvases = Some ids ->
  scan_canvases canvases = Return (find qualifies ids).
Proof.
  revert ids. induction canvases as [ | canvas rest IH]; intros ids Hids; cbn in Hids.
  - inversion Hids; reflexivity.
  - destruct (canvas_identifiers canvas) as [here | ] eqn:Hhere; [ | discriminate].
    destruct (canvases_identifiers rest) as [more | ]; [ | discriminate].
    inversion Hids; subst ids. rewrite find_app.
    unfold canvas_identifiers in Hhere.
    destruct canvas as [ | | | | | m]; try discriminate.
    cbn [scan_canvases obj_get bind].
    destruct (get_default m "images" (JArr [])) as [ | | | | imgs | ]; try discriminate.
    cbn [py_iter bind]. rewrite (first_image_find _ _ Hhere). cbn [bind].
    destruct (find qualifies here); [reflexivity | ].
    apply IH; reflexivity.
Qed.

Lemma manifest_image_find (manifest : json) (ids : list string) :
  first_sequence_identifiers manifest = Some ids ->
  manifest_image [text_content (Dumped manifest)] = Return (find qualifies ids).
Proof.
  unfold first_sequence_identifiers, manifest_image.
  cbn [first_payload bind text text_content json_loads].
  destruct manifest as [ | | | | | m]; try discriminate. cbn [obj_get bind].
  destruct (get_default m "sequences" (JArr [])) as [ | | | | seqs | ]; try discriminate.
  destruct seqs as [ | first others].
  - intros Hids; inversion Hids; reflexivity.
  - destruct first as [ | | | | | s]; try discriminate.
    cbn [truthy py_first bind obj_get].
    destruct (get_default s "canvases" (JArr [])) as [ | | | | canvases | ];
      try discriminate.
    intros Hids. cbn [py_iter bind]. rewrite (scan_canvases_find _ _ Hids). cbn [bind].
    destruct (find qualifies ids) as [url | ] eqn:Hfind; [ | reflexivity].
    apply find_some in Hfind. destruct Hfind as [_ Hq].
    rewrite (qualifies_nonempty _ Hq). reflexivity.
Qed.

(** C8. For a manifest that was fetched, the fallback reads the canvases
    of the first sequence only, in document order, and takes the first
    image identifier that is acceptable: one that ends in .jpg or .png and
    does not contain logo, in any mix of upper and lower case. That
    identifier becomes the image of the record, and a record whose manifest
    has no such identifier gets no image. *)
Theorem fallback_selects_first_qualifying (record_id : string) (title_ : option string)
    (manifest : json) (ids : list string) :
  url_get (manifest_url (JStr record_id)) = Replied (Document manifest) ->
  first_sequence_identifiers manifest = Some ids ->
  exists selection,
    first_acceptable ids selection
    /\ fallback_image (record_id, title_)
         (handle_get_manifest [("recordId", JStr record_id)])
       = selected_image (record_id, title_) selection
    /\ fallback_images [(record_id, title_)]
       = selected_image (record_id, title_) selection.
Proof.
  intros Hfetch Hids. exists (find qualifies ids).
  split; [apply find_first_acceptable | ].
  assert (Hone : fallback_image (record_id, title_)
                   (handle_get_manifest [("recordId", JStr record_id)])
                 = selected_image (record_id, title_) (find qualifies ids)).
  { rewrite (handle_get_manifest_returns [("recordId", JStr record_id)]
               (JStr record_id) eq_refl), Hfetch.
    cbn [manifest_payload fallback_image].
    rewrite (manifest_image_find _ _ Hids).
    destruct (find qualifies ids); reflexivity. }
  split; [exact Hone | ].
  unfold fallback_images, manifest_results.
  cbn [map combine flat_map fst snd]. rewrite Hone. apply app_nil_r.
Qed.

End ImageResolution.

(** Outside that shape the scan may raise before it reaches a qualifying
    identifier, and the record is left without image. *)
Lemma fallback_drops_other_shapes :
  first_sequence_identifiers numbered_then_scan = None
  /\ manifest_image (H := offline) [text_content (Dumped numbered_then_scan)]
     = Raise AttributeError
  /\ fallback_image (H := offline) ("990001", None)
       (Return [text_content (Dumped numbered_then_scan)]) = [].
Proof. repeat split. Qed.

Lemma fallback_selects_first_qualifying_witness :
  exists selection,
    selection = Some "real.jpg"
    /\ first_acceptable ["logoA.png"; "real.jpg"] selection
    /\ fallback_image (H := manifest_backend) ("990001", Some "Jerusalem, a map")
         (handle_get_manifest (H := manifest_backend) [("recordId", JStr "990001")])
       = selected_image ("990001", Some "Jerusalem, a map") selection
    /\ fallback_images (H := manifest_backend) [("990001", Some "Jerusalem, a map")]
       = selected_image ("990001", Some "Jerusalem, a map") selection.
Proof.
  destruct (fallback_selects_first_qualifying (H := manifest_backend)
              "990001" (Some "Jerusalem, a map") logo_then_scan
              ["logoA.png"; "real.jpg"] eq_refl eq_refl)
    as (selection & Hfirst & Hone & Hall).
  exists selection. split; [ | auto].
  destruct selection as [id | ]; vm_compute in Hone; [ | discriminate].
  inversion Hone. reflexivity.
Defined.

(** The same with capitals in the identifiers: the logo of the first
    canvas and the text file are passed over, and the first scan of the
    second canvas is taken, as it is written. *)
Lemma fallback_folds_case :
  first_sequence_identifiers mixed_case_manifest
    = Some ["Library-LOGO.PNG"; "notes.txt"; "Scan_0001.JPG"; "scan_0002.png"]
  /\ fallback_images (H := mixed_case_backend) [("990001", None)]
     = [{| recordId := Some "990001"; title := None; thumbnailUrl := "Scan_0001.JPG" |}]
  /\ qualifies "Library-LOGO.PNG" = false
  /\ qualifies "cover.PnG" = true.
Proof. repeat split. Qed.

Section Composer.
Context `{Runtime}.

Lemma search_envelope_shape (data offset limit envelope : json) :
  search_envelope data offset limit = Return envelope ->
  exists total page, envelope = JObj [("total_results", total); ("items", page)].
Proof.
  unfold search_envelope. intros Henv.
  destruct data; repeat bind_inv Henv; inversion Henv; eauto.
Qed.

Lemma handle_search_nli_shape (arguments : dict) (payloads : list TextContent) :
  handle_search_nli arguments = Return payloads ->
  (exists total page,
     payloads = [text_content (Dumped (JObj [("total_results", total); ("items", page)]))])
  \/ (exists e, payloads = error_text "Error searching NLI: " e).
Proof.
  unfold handle_search_nli. intros Hs.
  bind_inv Hs. bind_inv Hs.
  match type of Hs with try_except ?body _ = _ => destruct body as [ps | e] eqn:Hbody end;
    cbn [try_except] in Hs; inversion Hs; subst payloads.
  - left. repeat bind_inv Hbody. inversion Hbody.
    apply search_envelope_shape in Hv3. destruct Hv3 as (total & page & ->). eauto.
  - right. eauto.
Qed.

(** The search result carries neither [offset] nor [limit], so the range
    is computed from offset 0 and limit 3 whatever was asked for. *)
Lemma compose_response_envelope (user_query total page : json)
    (payloads : list TextContent) :
  compose_response user_query (JObj [("total_results", total); ("items", page)])
    = Return payloads ->
  exists T items images shown,
    as_int total = Some T
    /\ py_iter page = Return items
    /\ resolve_images items = Return images
    /\ exists rest,
        payloads =
          text_content
            (SummaryPrompt
               {| s_total_results := total;
                  s_results_start := 1;
                  s_results_end := Z.min T 3;
                  s_batch_size := shown;
                  s_has_more := Z.min T 3 <? T;
                  s_next_offset := if Z.min T 3 <? T then Some 3 else None;
                  s_current_limit := JInt 3;
                  s_search_data := JObj [("total_results", total); ("items", page)];
                  s_items_images := images;
                  s_user_query := user_query |}) :: rest
        /\ Forall (fun p => exists c, text p = ContinuationPrompt c) rest.
Proof.
  unfold compose_response. cbn [obj_get bind get_default lookup String.eqb Ascii.eqb Bool.eqb].
  intros Hc.
  unfold int_binop, int_lt in Hc. cbn [as_int bind] in Hc.
  destruct (as_int total) as [T | ] eqn:HT; cbn [bind] in Hc; [ | discriminate].
  bind_inv Hc. bind_inv Hc. cbn [bind] in Hc.
  replace (T - 0) with T in Hc by lia. change (0 + 3) with 3 in Hc.
  change (0 + 1) with 1 in Hc.
  exists T, v, v0.
  destruct (Z.min T 3 <? T); cbn [bind] in Hc; bind_inv Hc.
  - exists v1. repeat (split; [first [assumption | reflexivity] | ]).
    inversion Hc; subst payloads. cbn [app]. eexists; split; [reflexivity | ].
    constructor; [eexists; reflexivity | constructor].
  - exists v1. repeat (split; [first [assumption | reflexivity] | ]).
    inversion Hc; subst payloads. eexists; split; [reflexivity | ]. constructor.
Qed.

Lemma search_error_is_no_json (detail : string) :
  json_loads (Chars ("Error searching NLI: " ++ detail)) = Raise JSONDecodeError.
Proof. reflexivity. Qed.

Lemma generate_response_origin (arguments : dict) (payloads : list TextContent) :
  handle_generate_response arguments = Return payloads ->
  (exists total page,
     compose_response (get arguments "user_query")
       (JObj [("total_results", total); ("items", page)]) = Return payloads)
  \/ (exists s flag, payloads = [{| text := Chars s; is_error := flag |}]).
Proof.
  unfold handle_generate_response. intros Hg.
  destruct (negb (truthy (JObj arguments))); [inversion Hg; eauto | ].
  destruct (negb (truthy (get arguments "user_query"))); [inversion Hg; eauto | ].
  match type of Hg with try_except ?body _ = _ => destruct body as [ps | e] eqn:Hbody end;
    cbn [try_except] in Hg; [ | inversion Hg; unfold error_text, text_content; eauto].
  inversion Hg; subst ps. clear Hg.
  bind_inv Hbody.
  destruct (handle_search_nli_shape _ _ Hv) as [(total & page & ->) | (e & ->)].
  - cbn [first_payload bind text text_content json_loads] in Hbody. eauto.
  - unfold error_text in Hbody.
    cbn [first_payload bind text text_content] in Hbody.
    rewrite search_error_is_no_json in Hbody.
    inversion Hbody. unfold error_text, text_content; eauto.
Qed.

Lemma generate_response_summary (arguments : dict) (payloads : list TextContent)
    (p : TextContent) (s : summary) :
  handle_generate_response arguments = Return payloads ->
  In p payloads -> text p = SummaryPrompt s ->
  exists total page T items shown,
    as_int total = Some T
    /\ py_iter page = Return items
    /\ resolve_images items = Return (s_items_images s)
    /\ s = {| s_total_results := total;
              s_results_start := 1;
              s_results_end := Z.min T 3;
              s_batch_size := shown;
              s_has_more := Z.min T 3 <? T;
              s_next_offset := if Z.min T 3 <? T then Some 3 else None;
              s_current_limit := JInt 3;
              s_search_data := JObj [("total_results", total); ("items", page)];
              s_items_images := s_items_images s;
              s_user_query := get arguments "user_query" |}.
Proof.
  intros Hg Hin Hp.
  destruct (generate_response_origin _ _ Hg) as [(total & page & Hc) | (c & flag & ->)].
  - apply compose_response_envelope in Hc.
    destruct Hc as (T & items & images & shown & HT & Hit & Hres & rest & -> & Hrest).
    exists total, page, T, items, shown.
    destruct Hin as [<- | Hin].
    + cbn in Hp. inversion Hp; subst s. cbn. auto.
    + rewrite Forall_forall in Hrest. destruct (Hrest _ Hin) as [c Hc].
      rewrite Hc in Hp. discriminate.
  - destruct Hin as [<- | []]. discriminate.
Qed.

(** C1. The composer reads the offset from the search result, which never
    carries one, so the range is that of the first page at every offset:
    with seven results the summary says that more are available and names
    3 as the next offset, also when the request was made at offset 6. *)
Theorem summary_ignores_offset (arguments : dict) (payloads : list TextContent)
    (p : TextContent) (s : summary) :
  handle_generate_response arguments = Return payloads ->
  In p payloads -> text p = SummaryPrompt s ->
  s_total_results s = JInt 7 ->
  s_results_start s = 1 /\ s_results_end s = 3
  /\ s_has_more s = true /\ s_next_offset s = Some 3.
Proof.
  intros Hg Hin Hp Htotal.
  destruct (generate_response_summary _ _ _ _ Hg Hin Hp)
    as (total & page & T & items & shown & HT & _ & _ & Hs).
  rewrite Hs in Htotal |- *. cbn in Htotal |- *. subst total.
  inversion HT; subst T. auto.
Qed.

Lemma handle_generate_response_returns (arguments : dict) :
  exists payloads, handle_generate_response arguments = Return payloads.
Proof.
  unfold handle_generate_response.
  destruct (negb (truthy (JObj arguments))); [eauto | ].
  destruct (negb (truthy (get arguments "user_query"))); [eauto | ].
  match goal with |- exists _, try_except ?body _ = _ => destruct body end;
    cbn [try_except]; eauto.
Qed.

End Composer.

Lemma summary_ignores_offset_witness :
  exists s rest,
    handle_generate_response (H := seven_results_backend) (query_at 6)
      = Return (text_content (SummaryPrompt s) :: rest)
    /\ s_batch_size s = 0
    /\ s_results_start s = 1 /\ s_results_end s = 3
    /\ s_has_more s = true /\ s_next_offset s = Some 3.
Proof.
  destruct (handle_generate_response (H := seven_results_backend) (query_at 6))
    as [payloads | e] eqn:Hrun; vm_compute in Hrun; [ | discriminate].
  inversion Hrun as [Hpayloads]. clear Hrun.
  assert (Hagain : handle_generate_response (H := seven_results_backend) (query_at 6)
                   = Return payloads) by (subst payloads; vm_compute; reflexivity).
  subst payloads.
  eexists; eexists. split; [exact Hagain | ].
  split; [reflexivity | ].
  eapply (summary_ignores_offset (H := seven_results_backend) (query_at 6) _ _ _ Hagain);
    [left; reflexivity | reflexivity | reflexivity].
Defined.

(** At offset 0 the same summary is the right one: three of seven shown,
    more available from offset 3 on. *)
Lemma first_page_has_more :
  exists s rest,
    handle_generate_response (H := seven_results_backend) (query_at 0)
      = Return (text_content (SummaryPrompt s) :: rest)
    /\ s_batch_size s = 3
    /\ s_results_start s = 1 /\ s_results_end s = 3
    /\ s_has_more s = true /\ s_next_offset s = Some 3.
Proof. eexists; eexists. split; [vm_compute; reflexivity | repeat split]. Qed.

Section ImageInvariant.
Context `{Runtime}.









End ImageInvariant.



Section BatchStreamer.

(** *** Slices of a list *)

Lemma py_slice_firstn_skipn {A} (l : list A) (o k : Z) :
  0 <= o -> 0 <= k ->
  py_slice l o (o + k) = firstn (Z.to_nat k) (skipn (Z.to_nat o) l).
Proof.
  intros Ho Hk. unfold py_slice, slice_bound.
  destruct (o <? 0) eqn:Hneg; [apply Z.ltb_lt in Hneg; lia | ].
  destruct (o + k <? 0) eqn:Hneg'; [apply Z.ltb_lt in Hneg'; lia | ].
  set (n := Z.of_nat (List.length l)).
  destruct (Z_le_gt_dec n o) as [Hpast | Hin].
  - rewrite (skipn_all2 l (n := Z.to_nat (Z.min o n))) by (subst n; lia).
    rewrite (skipn_all2 l (n := Z.to_nat o)) by (subst n; lia).
    now rewrite !firstn_nil.
  - replace (Z.min o n) with o by lia.
    destruct (Z_le_gt_dec (o + k) n) as [Hfits | Hover].
    + replace (Z.min (o + k) n - o) with k by lia. reflexivity.
    + rewrite !firstn_all2; [reflexivity | | ]; rewrite length_skipn; subst n; lia.
Qed.

Lemma py_slice_rest {A} (l : list A) (o k : Z) :
  0 <= o -> 0 <= k ->
  (py_slice l o (o + k) ++ skipn (Z.to_nat (o + k)) l)%list = skipn (Z.to_nat o) l.
Proof.
  intros Ho Hk. rewrite py_slice_firstn_skipn by assumption.
  replace (Z.to_nat (o + k)) with (Z.to_nat k + Z.to_nat o)%nat by lia.
  rewrite <- skipn_skipn. apply firstn_skipn.
Qed.

Lemma py_slice_clamped {A} (l : list A) (o k : Z) :
  0 <= o -> 0 <= k ->
  py_slice l o (Z.min (o + k) (Z.of_nat (List.length l))) = py_slice l o (o + k).
Proof.
  intros Ho Hk. unfold py_slice, slice_bound.
  destruct (o + k <? 0) eqn:Hneg; [apply Z.ltb_lt in Hneg; lia | ].
  destruct (Z.min (o + k) (Z.of_nat (List.length l)) <? 0) eqn:Hneg';
    [apply Z.ltb_lt in Hneg'; lia | ].
  replace (Z.min (Z.min (o + k) (Z.of_nat (List.length l))) (Z.of_nat (List.length l)))
    with (Z.min (o + k) (Z.of_nat (List.length l))) by lia.
  reflexivity.
Qed.

(** *** One call *)



End BatchStreamer.



Section BatchPartition.

Variables (user_query items_images : json) (search_data : dict) (items : list json).
Variable batch_size : Z.
Hypothesis items_listed : lookup search_data "items" = Some (JArr items).
Hypothesis batch_size_positive : 1 <= batch_size.

Let len : Z := Z.of_nat (List.length items).

Let completed : completion :=
  {| f_len_items := len;
     f_total_results := get_default search_data "total_results" (JInt 0);
     f_user_query := user_query |}.

Let batch_at (offset : Z) : batch :=
  {| batch_start := offset + 1;
     batch_end := Z.min (offset + batch_size) len;
     b_len_items := len;
     b_total_results := get_default search_data "total_results" (JInt 0);
     b_context_items := JArr (py_slice items offset (offset + batch_size));
     b_items_images := items_images;
     b_user_query := user_query;
     next_offset := offset + batch_size;
     remaining := Z.max 0 (len - Z.min (offset + batch_size) len) |}.

Lemma batch_step_listed (offset : Z) :
  batch_step user_query (JObj search_data) items_images offset batch_size =
  Return (if offset >=? len
          then (completion_report completed, None)
          else (batch_report (batch_at offset), Some (offset + batch_size))).
Proof.
  assert (Hitems : get_default search_data "items" (JArr []) = JArr items)
    by (unfold get_default; rewrite items_listed; reflexivity).
  unfold batch_step. cbn [obj_get bind]. rewrite !Hitems.
  cbn [py_len bind py_getslice]. fold len.
  destruct (offset >=? len); reflexivity.
Qed.

Lemma last_remaining_cons (b : batch) (batches : list batch) :
  batches <> [] -> last_remaining (b :: batches) = last_remaining batches.
Proof. destruct batches; [congruence | reflexivity]. Qed.

(** The chain of reports from any offset on. *)
Lemma stream_batches_from (depth : nat) :
  forall offset,
    0 <= offset ->
    (Z.to_nat (len - offset) < depth)%nat ->
    exists batches,
      stream_batches depth user_query (JObj search_data) items_images offset batch_size
        = Some (Return (map batch_report batches ++ [completion_report completed])%list)
      /\ List.concat (map batch_items batches) = skipn (Z.to_nat offset) items
      /\ Forall (fun b => batch_items b = py_slice items (batch_start b - 1) (batch_end b))
                batches
      /\ last_remaining batches = 0
      /\ (len <= offset -> batches = [])
      /\ (offset < len -> batches <> [] /\ tiles (offset + 1) (map window batches) len).
Proof.
  induction depth as [ | depth IH]; intros offset Hpos Hdepth; [lia | ].
  cbn [stream_batches]. rewrite batch_step_listed.
  destruct (offset >=? len) eqn:Hend.
  - apply Z.geb_le in Hend. exists []. cbn.
    repeat split; try reflexivity; try lia; try constructor.
    symmetry. apply skipn_all2. subst len. lia.
  - rewrite Z.geb_leb in Hend. apply Z.leb_gt in Hend.
    destruct (IH (offset + batch_size)) as
      (batches & Hrun & Hconcat & Hslices & Hlast & Hnone & Hsome); [lia | lia | ].
    exists (batch_at offset :: batches). rewrite Hrun. cbn [map app List.concat].
    split; [reflexivity | ].
    split.
    { rewrite Hconcat. cbn [batch_items batch_at b_context_items].
      apply py_slice_rest; lia. }
    split.
    { constructor; [ | exact Hslices].
      cbn [batch_items batch_at b_context_items batch_start batch_end].
      replace (offset + 1 - 1) with offset by lia.
      symmetry. apply py_slice_clamped; lia. }
    destruct (Z_le_gt_dec len (offset + batch_size)) as [Hdone | Hmore].
    + rewrite (Hnone Hdone).
      split; [unfold last_remaining; cbn; lia | ].
      split; [intros Hpast; lia | ].
      intros _. split; [discriminate | ].
      cbn. repeat split; lia.
    + destruct (Hsome ltac:(lia)) as [Hne Htiles].
      split; [rewrite (last_remaining_cons _ _ Hne); exact Hlast | ].
      split; [intros Hpast; lia | ].
      intros _. split; [discriminate | ].
      cbn [map tiles window batch_at batch_start batch_end].
      replace (Z.min (offset + batch_size) len) with (offset + batch_size) by lia.
      split; [reflexivity | split; [lia | exact Htiles]].
Qed.

End BatchPartition.

Section BatchChain.

(** C7. For every list of items and every batch size of at least 1,
    [stream_batches] from offset 0 returns, given depth for one call more
    than there are items, the batch reports followed by exactly one
    completion report. The batches are the items, each once and in order;
    their windows tile 1 to the number of items without gap or overlap;
    the last batch report has nothing remaining; the completion report
    gives the number of items and the total of the backend. *)
Theorem batches_cover_items_once (depth : nat) (user_query items_images : json)
    (search_data : dict) (items : list json) (batch_size : Z) :
  lookup search_data "items" = Some (JArr items) ->
  1 <= batch_size ->
  (List.length items < depth)%nat ->
  exists batches,
    stream_batches depth user_query (JObj search_data) items_images 0 batch_size
      = Some (Return
                (map batch_report batches ++
                 [completion_report
                    {| f_len_items := Z.of_nat (List.length items);
                       f_total_results := get_default search_data "total_results" (JInt 0);
                       f_user_query := user_query |}])%list)
    /\ List.concat (map batch_items batches) = items
    /\ Forall (fun b => batch_items b = py_slice items (batch_start b - 1) (batch_end b))
              batches
    /\ tiles 1 (map window batches) (Z.of_nat (List.length items))
    /\ last_remaining batches = 0.
Proof.
  intros Hitems Hsize Hdepth.
  destruct (stream_batches_from user_query items_images search_data items batch_size
              Hitems Hsize depth 0)
    as (batches & Hrun & Hconcat & Hslices & Hlast & Hnone & Hsome); [lia | lia | ].
  exists batches. repeat split; try assumption.
  destruct (Z_le_gt_dec (Z.of_nat (List.length items)) 0) as [Hempty | Hitems'].
  - rewrite (Hnone Hempty). cbn. lia.
  - exact (proj2 (Hsome ltac:(lia))).
Qed.

End BatchChain.

Lemma batches_cover_items_once_witness :
  exists batches,
    stream_batches 26 (JStr "maps") (JObj twenty_five_results) (JArr []) 0 10
      = Some (Return
                (map batch_report batches ++
                 [completion_report
                    {| f_len_items := 25; f_total_results := JInt 4312;
                       f_user_query := JStr "maps" |}])%list)
    /\ map window batches = [(1, 10); (11, 20); (21, 25)]
    /\ List.concat (map batch_items batches) = twenty_five_items
    /\ last_remaining batches = 0.
Proof.
  destruct (batches_cover_items_once 26 (JStr "maps") (JArr []) twenty_five_results
              twenty_five_items 10 eq_refl ltac:(lia) ltac:(cbn; lia))
    as (batches & Hrun & Hconcat & _ & _ & Hlast).
  exists batches. split; [exact Hrun | ].
  split; [ | split; assumption].
  vm_compute in Hrun.
  destruct batches as [ | b1 [ | b2 [ | b3 [ | b4 rest]]]]; try discriminate.
  inversion Hrun; reflexivity.
Defined.

(** * Further properties of the handlers *)

(** ** Dictionaries *)

Lemma lookup_store_same (m : dict) (k : string) (v : json) :
  lookup (store m k v) k = Some v.
Proof.
  induction m as [ | [k' v'] rest IH]; cbn.
  - rewrite String.eqb_refl. reflexivity.
  - destruct (String.eqb k' k) eqn:Hk; cbn; rewrite Hk; [reflexivity | exact IH].
Qed.

Lemma lookup_store_other (m : dict) (k k' : string) (v : json) :
  String.eqb k k' = false -> lookup (store m k v) k' = lookup m k'.
Proof.
  intros Hne. induction m as [ | [k0 v0] rest IH]; cbn.
  - rewrite Hne. reflexivity.
  - destruct (String.eqb k0 k) eqn:Hk; cbn.
    + apply String.eqb_eq in Hk. subst k0. rewrite Hne. reflexivity.
    + rewrite IH. reflexivity.
Qed.

Lemma lookup_filter_None (f : string * json -> bool) (m : dict) (k : string) :
  lookup m k = None -> lookup (filter f m) k = None.
Proof.
  induction m as [ | [k' v'] rest IH]; cbn; [reflexivity | ].
  destruct (String.eqb k' k) eqn:Hk; [discriminate | ].
  intros Hnone. destruct (f (k', v')); cbn; [rewrite Hk | ]; auto.
Qed.

Lemma keeps_for_search_limit (k : string) (v : json) :
  String.eqb k "limit" = true -> keeps_for_search (k, v) = false.
Proof.
  intros Hk. unfold keeps_for_search. cbn [fst snd]. rewrite Hk.
  cbn [negb]. rewrite andb_false_r. reflexivity.
Qed.

Lemma filter_store_limit (m : dict) (v : json) :
  filter keeps_for_search (store m "limit" v) = filter keeps_for_search m.
Proof.
  induction m as [ | [k' v'] rest IH]; [reflexivity | ].
  cbn [store]. destruct (String.eqb k' "limit") eqn:Hk.
  - cbn [filter]. rewrite !(keeps_for_search_limit _ _ Hk). reflexivity.
  - cbn [filter]. rewrite IH. reflexivity.
Qed.

Section Arguments.
Context `{Runtime}.

(** The flag [count_only] is read and then left unused: the search is the
    same with and without it, whatever its value. *)
Theorem search_ignores_count_only (arguments : dict) (v : json) :
  handle_search_nli (store arguments "count_only" v) = handle_search_nli arguments.
Proof.
  unfold handle_search_nli, search_params, optional_filters, subscript, get, get_default.
  rewrite !lookup_store_other by reflexivity. reflexivity.
Qed.

(** The composer searches with the page size 3 whatever [limit] it is
    given. *)
Theorem composer_ignores_limit (arguments : dict) (v : json) :
  arguments <> [] ->
  handle_generate_response (store arguments "limit" v)
  = handle_generate_response arguments.
Proof.
  intros Hne. unfold handle_generate_response.
  assert (Hfull : truthy (JObj (store arguments "limit" v)) = true)
    by (destruct arguments as [ | [k' v'] rest]; cbn;
        [reflexivity | destruct (String.eqb k' "limit"); reflexivity]).
  assert (Hfull' : truthy (JObj arguments) = true)
    by (destruct arguments; [congruence | reflexivity]).
  rewrite Hfull, Hfull'. cbn [negb].
  unfold get, get_default. rewrite lookup_store_other by reflexivity.
  rewrite filter_store_limit. reflexivity.
Qed.

(** Without [q] the composer answers with the text of the [KeyError],
    whatever the backend would do: no request is made. *)
Theorem composer_without_q (arguments : dict) :
  truthy (get arguments "user_query") = true ->
  lookup arguments "q" = None ->
  handle_generate_response arguments
  = Return (error_text "Error processing query: " (KeyError "q")).
Proof.
  intros Huq Hq. unfold handle_generate_response.
  assert (Hfull : truthy (JObj arguments) = true).
  { destruct arguments; [ | reflexivity]. cbn in Huq. discriminate. }
  rewrite Hfull, Huq. cbn [negb].
  unfold handle_search_nli, subscript.
  rewrite lookup_store_other by reflexivity.
  rewrite (lookup_filter_None _ _ _ Hq). reflexivity.
Qed.

End Arguments.

Lemma composer_ignores_limit_witness :
  handle_generate_response (H := seven_results_backend)
    (store (query_at 0) "limit" (JInt 50))
  = handle_generate_response (H := seven_results_backend) (query_at 0).
Proof.
  apply (composer_ignores_limit (H := seven_results_backend) (query_at 0) (JInt 50)).
  discriminate.
Defined.

Lemma composer_without_q_witness :
  handle_generate_response (H := seven_results_backend)
    [("user_query", JStr "maps of Jerusalem"); ("offset", JInt 3)]
  = Return (error_text (H := seven_results_backend)
              "Error processing query: " (KeyError "q")).
Proof.
  apply (composer_without_q (H := seven_results_backend)); reflexivity.
Defined.

Section SearchParameters.
Context `{Runtime}.

Lemma lookup_absent_key (m : dict) (k : string) :
  ~ In k (map fst m) -> lookup m k = None.
Proof.
  induction m as [ | [k' v'] rest IH]; cbn; [reflexivity | ].
  intros Hnot. destruct (String.eqb k' k) eqn:Hk.
  - apply String.eqb_eq in Hk. tauto.
  - apply IH. tauto.
Qed.

Lemma lookup_store_unless_None (params : dict) (kv : string * json) (k : string) :
  lookup (store_unless_None params kv) k =
  if (String.eqb (fst kv) k && negb (is_None (snd kv)))%bool
  then Some (snd kv) else lookup params k.
Proof.
  unfold store_unless_None. destruct kv as [k' v]. cbn [fst snd].
  destruct (is_None v); cbn [negb]; [rewrite andb_false_r; reflexivity | ].
  rewrite andb_true_r. destruct (String.eqb k' k) eqn:Hk.
  - apply String.eqb_eq in Hk. subst k'. apply lookup_store_same.
  - apply lookup_store_other. exact Hk.
Qed.

(** Storing a table of filters with distinct names, one after the other. *)
Lemma lookup_fold_filters (filters : dict) :
  NoDup (map fst filters) ->
  forall (params : dict) (k : string),
    lookup (fold_left store_unless_None filters params) k =
    match lookup filters k with
    | Some v => if is_None v then lookup params k else Some v
    | None => lookup params k
    end.
Proof.
  induction filters as [ | [k' v] rest IH]; intros Hdistinct params k; [reflexivity | ].
  inversion Hdistinct as [ | ? ? Hfresh Hrest]; subst.
  cbn [fold_left lookup]. rewrite (IH Hrest), lookup_store_unless_None. cbn [fst snd].
  destruct (String.eqb k' k) eqn:Hk.
  - apply String.eqb_eq in Hk. subst k'.
    rewrite (lookup_absent_key _ _ Hfresh). cbn [andb].
    destruct (is_None v); reflexivity.
  - cbn [andb]. reflexivity.
Qed.

Lemma optional_filters_distinct (arguments : dict) :
  NoDup (map fst (optional_filters arguments)).
Proof.
  cbn. repeat (constructor; [cbn; intuition discriminate | ]). constructor.
Qed.

Lemma forwarded_get (arguments : dict) (argument : string) :
  forwarded arguments argument =
  if is_None (get arguments argument) then None else Some (get arguments argument).
Proof.
  unfold forwarded, get, get_default.
  destruct (lookup arguments argument) as [[ | | | | | ] | ]; reflexivity.
Qed.

(** The parameters of the backend request. The five fixed ones are always
    there; each optional filter is sent under its backend name when the
    argument has a value, and left out when the argument is absent or
    null. *)
Theorem search_params_forward_filters (arguments params : dict) (q : json) :
  search_params arguments q = Return params ->
  lookup params "api_key" = Some (JStr NLI_API_KEY)
  /\ lookup params "query" = Some q
  /\ lookup params "output_format"
     = Some (get_default arguments "output_format" (JStr "json"))
  /\ lookup params "rows" = Some (get arguments "limit")
  /\ lookup params "start" = Some (get_default arguments "offset" (JInt 0))
  /\ forall argument backend,
       In (argument, backend) filter_names ->
       lookup params backend = forwarded arguments argument.
Proof.
  unfold search_params. intros Hparams.
  set (base := [("api_key", JStr NLI_API_KEY); ("query", q);
                ("output_format", get_default arguments "output_format" (JStr "json"));
                ("rows", get arguments "limit");
                ("start", get_default arguments "offset" (JInt 0))]) in Hparams.
  set (filtered := fold_left store_unless_None (optional_filters arguments) base)
    in Hparams.
  assert (Hfiltered : forall k,
    lookup filtered k =
    match lookup (optional_filters arguments) k with
    | Some v => if is_None v then lookup base k else Some v
    | None => lookup base k
    end) by (intros k; apply lookup_fold_filters, optional_filters_distinct).
  assert (Hfinal : forall k,
    String.eqb "facet.field" k = false -> String.eqb "facet.limit" k = false ->
    String.eqb "facet.offset" k = false -> String.eqb "facet.sort" k = false ->
    String.eqb "fields" k = false ->
    lookup params k = lookup filtered k).
  { intros k H1 H2 H3 H4 H5.
    destruct (truthy (get_default arguments "fields" (JArr []))).
    - bind_inv Hparams. inversion Hparams; subst params.
      rewrite lookup_store_other by exact H5.
      destruct (truthy (get arguments "facet_sort"));
        [rewrite lookup_store_other by exact H4 | ];
        rewrite !lookup_store_unless_None; cbn [fst snd]; rewrite H3, H2; cbn [andb];
        destruct (truthy (get_default arguments "facet_field" (JArr [])));
        try rewrite lookup_store_other by exact H1; reflexivity.
    - inversion Hparams; subst params.
      destruct (truthy (get arguments "facet_sort"));
        [rewrite lookup_store_other by exact H4 | ];
        rewrite !lookup_store_unless_None; cbn [fst snd]; rewrite H3, H2; cbn [andb];
        destruct (truthy (get_default arguments "facet_field" (JArr [])));
        try rewrite lookup_store_other by exact H1; reflexivity. }
  repeat split;
    try (rewrite Hfinal by reflexivity; rewrite Hfiltered; reflexivity).
  intros argument backend Hin. rewrite forwarded_get.
  cbn in Hin.
  repeat (destruct Hin as [Hpair | Hin];
          [inversion Hpair; subst argument backend;
           rewrite Hfinal by reflexivity; rewrite Hfiltered; reflexivity | ]).
  contradiction.
Qed.

End SearchParameters.

Lemma search_params_forward_filters_witness :
  exists params,
    search_params (H := offline) filtered_query (JStr "any,contains,Jerusalem")
      = Return params
    /\ lookup params "creator" = Some (JStr "Bialik")
    /\ lookup params "subject" = None
    /\ lookup params "publisher" = None
    /\ lookup params "start_date" = Some (JStr "1900")
    /\ lookup params "rows" = Some (JInt 10)
    /\ lookup params "start" = Some (JInt 0).
Proof.
  eexists. split; [reflexivity | ].
  destruct (search_params_forward_filters (H := offline) filtered_query _
              (JStr "any,contains,Jerusalem") eq_refl)
    as (_ & _ & _ & Hrows & Hstart & Hfilters).
  split; [exact (Hfilters "creator" "creator" ltac:(cbn; tauto)) | ].
  split; [exact (Hfilters "subject" "subject" ltac:(cbn; tauto)) | ].
  split; [exact (Hfilters "publisher" "publisher" ltac:(cbn; tauto)) | ].
  split; [exact (Hfilters "dateFrom" "start_date" ltac:(cbn; tauto)) | ].
  split; [exact Hrows | exact Hstart].
Defined.

Section SearchPages.
Context `{Runtime}.

Lemma py_slice_length {A} (l : list A) (lo hi : Z) :
  lo <= hi ->
  (List.length (py_slice l lo hi) <= Z.to_nat (hi - lo))%nat.
Proof.
  intros Hle. unfold py_slice. rewrite length_firstn.
  etransitivity; [apply Nat.le_min_l | ].
  unfold slice_bound.
  destruct (lo <? 0) eqn:Hlo; destruct (hi <? 0) eqn:Hhi;
    try apply Z.ltb_lt in Hlo; try apply Z.ltb_lt in Hhi;
    try apply Z.ltb_ge in Hlo; try apply Z.ltb_ge in Hhi; lia.
Qed.

Lemma py_slice_past_end {A} (l : list A) (lo hi : Z) :
  Z.of_nat (List.length l) <= lo -> py_slice l lo hi = [].
Proof.
  intros Hpast. unfold py_slice, slice_bound.
  destruct (lo <? 0) eqn:Hlo; [apply Z.ltb_lt in Hlo; lia | ].
  rewrite skipn_all2 by lia. apply firstn_nil.
Qed.

Lemma search_envelope_items (data total offset limit : json) (l : list json) (lo n : Z) :
  backend_items data = Some (total, l) ->
  as_int offset = Some lo -> as_int limit = Some n ->
  search_envelope data offset limit =
  Return (JObj [("total_results", total); ("items", JArr (py_slice l lo (lo + n)))]).
Proof.
  unfold backend_items, search_envelope, client_slice. intros Hdata Hlo Hn.
  destruct data as [ | | | | l' | m]; try discriminate.
  - inversion Hdata; subst. rewrite Hlo, Hn. reflexivity.
  - cbn [obj_get bind].
    destruct (get_default m "items" (JArr [])) as [ | | | | l' | ]; try discriminate.
    inversion Hdata; subst. rewrite Hlo, Hn. reflexivity.
Qed.

Lemma search_window_run (arguments params : dict) (q data total : json)
    (l : list json) (lo n : Z) :
  lookup arguments "q" = Some q ->
  search_params arguments q = Return params ->
  search_get params = Replied (Document data) ->
  backend_items data = Some (total, l) ->
  as_int (get_default arguments "offset" (JInt 0)) = Some lo ->
  as_int (get arguments "limit") = Some n ->
  handle_search_nli arguments =
    Return [text_content
              (Dumped (JObj [("total_results", total);
                             ("items", JArr (py_slice l lo (lo + n)))]))].
Proof.
  intros Hq Hparams Hreply Hdata Hlo Hn.
  unfold handle_search_nli, subscript. rewrite Hq. cbn [bind].
  rewrite Hparams. cbn [bind]. rewrite Hreply. cbn [responded response_json bind].
  rewrite (search_envelope_items _ _ _ _ _ _ _ Hdata Hlo Hn). reflexivity.
Qed.

(** A search that reaches the backend and gets a list of items, bare or
    inside an object, returns the total of the backend unchanged and the
    slice [offset : offset + limit] of the items received. For a limit that
    is not negative these are never more than [limit] items, and for an
    offset that is not negative either they are the first [limit] items
    after [offset]. *)
Theorem search_returns_window (arguments params : dict) (q data total : json)
    (l : list json) (lo n : Z) :
  lookup arguments "q" = Some q ->
  search_params arguments q = Return params ->
  search_get params = Replied (Document data) ->
  backend_items data = Some (total, l) ->
  as_int (get_default arguments "offset" (JInt 0)) = Some lo ->
  as_int (get arguments "limit") = Some n ->
  handle_search_nli arguments =
    Return [text_content
              (Dumped (JObj [("total_results", total);
                             ("items", JArr (py_slice l lo (lo + n)))]))]
  /\ (0 <= n -> (List.length (py_slice l lo (lo + n)) <= Z.to_nat n)%nat)
  /\ (0 <= lo -> 0 <= n ->
      py_slice l lo (lo + n) = firstn (Z.to_nat n) (skipn (Z.to_nat lo) l)).
Proof.
  intros Hq Hparams Hreply Hdata Hlo Hn. split; [ | split].
  - eapply search_window_run; eassumption.
  - intros Hpos. etransitivity; [apply py_slice_length; lia | ]. lia.
  - apply py_slice_firstn_skipn.
Qed.

(** The slice is taken from the items the backend sent, not from the whole
    result: when the backend has applied [rows] itself, so that it sends at
    most [limit] items, every page from offset [limit] on comes back
    empty, with the total still in place. *)
Theorem search_beyond_first_page_is_empty (arguments params : dict) (q data total : json)
    (l : list json) (lo n : Z) :
  lookup arguments "q" = Some q ->
  search_params arguments q = Return params ->
  search_get params = Replied (Document data) ->
  backend_items data = Some (total, l) ->
  as_int (get_default arguments "offset" (JInt 0)) = Some lo ->
  as_int (get arguments "limit") = Some n ->
  Z.of_nat (List.length l) <= n -> n <= lo ->
  handle_search_nli arguments =
    Return [text_content (Dumped (JObj [("total_results", total); ("items", JArr [])]))].
Proof.
  intros Hq Hparams Hreply Hdata Hlo Hn Hrows Hpage.
  rewrite (search_window_run _ _ _ _ _ _ _ _ Hq Hparams Hreply Hdata Hlo Hn).
  rewrite py_slice_past_end by lia. reflexivity.
Qed.

(** Every failure of the request is answered in text: once [q] is there
    and the parameters are built, the search returns exactly one payload,
    the envelope or the error text, and the error text is what a transport
    failure, a refused status and an undecodable body give. *)
Theorem search_failures_are_text (arguments params : dict) (q : json) :
  lookup arguments "q" = Some q ->
  search_params arguments q = Return params ->
  exists p,
    handle_search_nli arguments = Return [p]
    /\ ((exists total page,
           text p = Dumped (JObj [("total_results", total); ("items", page)]))
        \/ (exists e, text p = Chars ("Error searching NLI: " ++ exn_str e)))
    /\ (forall e, search_get params = Unreachable e \/ search_get params = Refused e ->
                  text p = Chars ("Error searching NLI: " ++ exn_str e))
    /\ (search_get params = Replied Garbage ->
        text p = Chars ("Error searching NLI: " ++ exn_str JSONDecodeError)).
Proof.
  intros Hq Hparams.
  unfold handle_search_nli, subscript. rewrite Hq. cbn [bind].
  rewrite Hparams. cbn [bind].
  destruct (search_get params) as [e | e | [ | data]] eqn:Hreply;
    cbn [responded response_json bind try_except].
  - eexists; split; [reflexivity | ]. split; [right; eexists; reflexivity | ].
    split; [ | discriminate].
    intros e' [He | He]; inversion He; reflexivity.
  - eexists; split; [reflexivity | ]. split; [right; eexists; reflexivity | ].
    split; [ | discriminate].
    intros e' [He | He]; inversion He; reflexivity.
  - eexists; split; [reflexivity | ]. split; [right; eexists; reflexivity | ].
    split; [ | reflexivity].
    intros e' [He | He]; discriminate.
  - destruct (search_envelope data (get_default arguments "offset" (JInt 0))
                (get arguments "limit")) as [envelope | e] eqn:Henv;
      cbn [bind try_except].
    + destruct (search_envelope_shape _ _ _ _ Henv) as (total & page & ->).
      eexists; split; [reflexivity | ].
      split; [left; exists total, page; reflexivity | ].
      split; [ | discriminate]. intros e' [He | He]; discriminate.
    + eexists; split; [reflexivity | ]. split; [right; eexists; reflexivity | ].
      split; [ | discriminate]. intros e' [He | He]; discriminate.
Qed.

(** The search raises only before the request: for a missing [q], or for
    [fields] that cannot be joined. *)
Theorem search_raises_before_request (arguments : dict) (e : exn) :
  handle_search_nli arguments = Raise e ->
  (lookup arguments "q" = None /\ e = KeyError "q")
  \/ (truthy (get_default arguments "fields" (JArr [])) = true
      /\ join_fields (get_default arguments "fields" (JArr [])) = Raise e).
Proof.
  unfold handle_search_nli, subscript. intros Hraise.
  destruct (lookup arguments "q") as [q | ]; cbn [bind] in Hraise;
    [ | inversion Hraise; auto].
  right.
  destruct (search_params arguments q) as [params | e'] eqn:Hparams; cbn [bind] in Hraise.
  - match type of Hraise with try_except ?body _ = _ => destruct body end;
      discriminate.
  - inversion Hraise; subst e'. unfold search_params in Hparams.
    destruct (truthy (get_default arguments "fields" (JArr []))); [ | discriminate].
    split; [reflexivity | ].
    destruct (join_fields (get_default arguments "fields" (JArr []))) as [joined | e0];
      cbn [bind] in Hparams; [discriminate | inversion Hparams; reflexivity].
Qed.

End SearchPages.

Lemma search_returns_window_witness :
  handle_search_nli (H := bare_list_backend)
    [("q", JStr "any,contains,x"); ("offset", JInt 3); ("limit", JInt 10)]
  = Return [text_content
              (Dumped (JObj [("total_results", JInt 5);
                             ("items", JArr (py_slice five_records 3 (3 + 10)))]))]
  /\ (0 <= 10 -> (List.length (py_slice five_records 3 (3 + 10)) <= Z.to_nat 10)%nat)
  /\ (0 <= 3 -> 0 <= 10 ->
      py_slice five_records 3 (3 + 10) = firstn (Z.to_nat 10) (skipn (Z.to_nat 3) five_records)).
Proof.
  eapply (search_returns_window (H := bare_list_backend)); reflexivity.
Defined.

Lemma search_beyond_first_page_is_empty_witness :
  handle_search_nli (H := seven_results_backend) second_page
  = Return [text_content (Dumped (JObj [("total_results", JInt 7); ("items", JArr [])]))].
Proof.
  eapply (search_beyond_first_page_is_empty (H := seven_results_backend) second_page
            _ _ _ _ _ 3 3); try reflexivity; cbn; lia.
Defined.

Lemma search_failures_are_text_witness :
  exists p,
    handle_search_nli (H := unreachable_backend) second_page = Return [p]
    /\ text p = Chars "Error searching NLI: <exception>".
Proof.
  destruct (search_failures_are_text (H := unreachable_backend) second_page _ _
              eq_refl eq_refl) as (p & Hrun & _ & Hfail & _).
  exists p. split; [exact Hrun | ].
  exact (Hfail (TransportError "connection refused") (or_introl eq_refl)).
Defined.

Lemma search_raises_before_request_witness :
  handle_search_nli (H := offline)
    [("q", JStr "any,contains,x"); ("fields", JArr [JStr "title"; JInt 7])]
  = Raise TypeError
  /\ join_fields (JArr [JStr "title"; JInt 7]) = Raise TypeError.
Proof.
  split; [reflexivity | ].
  destruct (search_raises_before_request (H := offline)
              [("q", JStr "any,contains,x"); ("fields", JArr [JStr "title"; JInt 7])]
              TypeError eq_refl) as [[Hq _] | [_ Hjoin]]; [discriminate | exact Hjoin].
Defined.

Section ComposerPages.
Context `{Runtime}.

Lemma compose_response_payloads (user_query total page : json)
    (payloads : list TextContent) :
  compose_response user_query (JObj [("total_results", total); ("items", page)])
    = Return payloads ->
  exists T items images shown,
    as_int total = Some T
    /\ py_iter page = Return items
    /\ resolve_images items = Return images
    /\ py_len page = Return shown
    /\ payloads =
         text_content
           (SummaryPrompt
              {| s_total_results := total;
                 s_results_start := 1;
                 s_results_end := Z.min T 3;
                 s_batch_size := shown;
                 s_has_more := 3 <? T;
                 s_next_offset := if 3 <? T then Some 3 else None;
                 s_current_limit := JInt 3;
                 s_search_data := JObj [("total_results", total); ("items", page)];
                 s_items_images := images;
                 s_user_query := user_query |})
         :: (if 3 <? T
             then [text_content
                     (ContinuationPrompt
                        {| c_more := T - 3; c_current_limit := JInt 3;
                           c_next_offset := Some 3 |})]
             else []).
Proof.
  unfold compose_response. cbn [obj_get bind get_default lookup String.eqb Ascii.eqb Bool.eqb].
  intros Hc.
  unfold int_binop, int_lt in Hc. cbn [as_int bind] in Hc.
  destruct (as_int total) as [T | ] eqn:HT; cbn [bind] in Hc; [ | discriminate].
  bind_inv Hc. bind_inv Hc. cbn [bind] in Hc.
  replace (T - 0) with T in Hc by lia. change (0 + 3) with 3 in Hc.
  change (0 + 1) with 1 in Hc.
  exists T, v, v0.
  destruct (Z.min T 3 <? T) eqn:Hmore; cbn [bind] in Hc; bind_inv Hc.
  - apply Z.ltb_lt in Hmore.
    assert (Hthree : (3 <? T) = true) by (apply Z.ltb_lt; lia).
    rewrite Hthree. exists v1. repeat (split; [first [assumption | reflexivity] | ]).
    inversion Hc; subst payloads. cbn [app].
    replace (T - Z.min T 3) with (T - 3) by lia. reflexivity.
  - apply Z.ltb_ge in Hmore.
    assert (Hthree : (3 <? T) = false) by (apply Z.ltb_ge; lia).
    rewrite Hthree. exists v1. repeat (split; [first [assumption | reflexivity] | ]).
    inversion Hc; subst payloads. reflexivity.
Qed.

Lemma generate_response_search (arguments : dict) (payloads : list TextContent) :
  handle_generate_response arguments = Return payloads ->
  (exists total page,
     handle_search_nli (composer_search arguments)
       = Return [text_content (Dumped (JObj [("total_results", total); ("items", page)]))]
     /\ compose_response (get arguments "user_query")
          (JObj [("total_results", total); ("items", page)]) = Return payloads)
  \/ (exists s flag, payloads = [{| text := Chars s; is_error := flag |}]).
Proof.
  unfold handle_generate_response. intros Hg.
  destruct (negb (truthy (JObj arguments))); [inversion Hg; eauto | ].
  destruct (negb (truthy (get arguments "user_query"))); [inversion Hg; eauto | ].
  match type of Hg with try_except ?body _ = _ => destruct body as [ps | e] eqn:Hbody end;
    cbn [try_except] in Hg; [ | inversion Hg; unfold error_text, text_content; eauto].
  inversion Hg; subst ps. clear Hg.
  bind_inv Hbody. fold (composer_search arguments) in Hv.
  destruct (handle_search_nli_shape _ _ Hv) as [(total & page & ->) | (e & ->)].
  - cbn [first_payload bind text text_content json_loads] in Hbody. eauto.
  - unfold error_text in Hbody.
    cbn [first_payload bind text text_content] in Hbody.
    rewrite search_error_is_no_json in Hbody.
    inversion Hbody. unfold error_text, text_content; eauto.
Qed.

Lemma generate_response_payload_count (arguments : dict) :
  exists payloads,
    handle_generate_response arguments = Return payloads
    /\ (1 <= List.length payloads <= 2)%nat.
Proof.
  destruct (handle_generate_response_returns arguments) as [payloads Hrun].
  exists payloads. split; [exact Hrun | ].
  destruct (generate_response_search _ _ Hrun)
    as [(total & page & _ & Hc) | (s & flag & ->)]; [ | cbn; lia].
  apply compose_response_payloads in Hc.
  destruct Hc as (T & items & images & shown & _ & _ & _ & _ & ->).
  destruct (3 <? T); cbn; lia.
Qed.

(** The composer raises on no argument mapping, and it returns one
    payload or two. *)
Theorem composer_returns_payloads (arguments : dict) :
  exists payloads,
    handle_generate_response arguments = Return payloads
    /\ (1 <= List.length payloads <= 2)%nat.
Proof. exact (generate_response_payload_count arguments). Qed.

(** What the summary says depends on the total alone. It always starts
    at 1 and ends at the smaller of the total and 3; more results are
    announced exactly when the total is above 3, and then one continuation
    payload follows, which counts total - 3 more and names 3 as the next
    offset. *)
Theorem composer_continues_above_three (arguments : dict) (payloads : list TextContent)
    (p : TextContent) (s : summary) :
  handle_generate_response arguments = Return payloads ->
  In p payloads -> text p = SummaryPrompt s ->
  exists T,
    as_int (s_total_results s) = Some T
    /\ s_results_start s = 1
    /\ s_results_end s = Z.min T 3
    /\ s_has_more s = (3 <? T)
    /\ s_next_offset s = (if 3 <? T then Some 3 else None)
    /\ payloads =
         p :: (if 3 <? T
               then [text_content
                       (ContinuationPrompt
                          {| c_more := T - 3; c_current_limit := JInt 3;
                             c_next_offset := Some 3 |})]
               else []).
Proof.
  intros Hg Hin Hp.
  destruct (generate_response_search _ _ Hg)
    as [(total & page & _ & Hc) | (c & flag & ->)].
  - apply compose_response_payloads in Hc.
    destruct Hc as (T & items & images & shown & HT & _ & _ & _ & ->).
    exists T.
    assert (Hhead : p = text_content
                          (SummaryPrompt
                             {| s_total_results := total;
                                s_results_start := 1;
                                s_results_end := Z.min T 3;
                                s_batch_size := shown;
                                s_has_more := 3 <? T;
                                s_next_offset := if 3 <? T then Some 3 else None;
                                s_current_limit := JInt 3;
                                s_search_data :=
                                  JObj [("total_results", total); ("items", page)];
                                s_items_images := images;
                                s_user_query := get arguments "user_query" |})).
    { destruct Hin as [<- | Hin]; [reflexivity | ].
      destruct (3 <? T); [ | contradiction].
      destruct Hin as [<- | []]. discriminate. }
    subst p. cbn in Hp. inversion Hp; subst s. cbn. auto 10.
  - destruct Hin as [<- | []]. discriminate.
Qed.

(** *** The page and its images *)

Lemma search_envelope_page (data offset limit total page : json) :
  search_envelope data offset limit
    = Return (JObj [("total_results", total); ("items", page)]) ->
  exists src lo n,
    as_int limit = Some n /\ py_getslice src lo (lo + n) = Return page.
Proof.
  unfold search_envelope, client_slice. intros Henv.
  destruct data; repeat bind_inv Henv; inversion Henv; subst;
    match goal with
    | Hs : match as_int offset with _ => _ end = Return _ |- _ =>
        destruct (as_int offset) as [lo | ]; [ | discriminate];
        destruct (as_int limit) as [n | ]; [ | discriminate];
        eauto
    end.
Qed.

Lemma handle_search_nli_page (arguments : dict) (total page : json) :
  handle_search_nli arguments
    = Return [text_content (Dumped (JObj [("total_results", total); ("items", page)]))] ->
  exists src lo n,
    as_int (get arguments "limit") = Some n /\ py_getslice src lo (lo + n) = Return page.
Proof.
  unfold handle_search_nli. intros Hs. bind_inv Hs. bind_inv Hs.
  match type of Hs with try_except ?body _ = _ => destruct body as [ps | e] eqn:Hbody end;
    cbn [try_except] in Hs; [ | discriminate].
  inversion Hs; subst ps. repeat bind_inv Hbody. inversion Hbody; subst.
  eapply search_envelope_page; eassumption.
Qed.

Lemma sliced_page_size (src page : json) (lo n : Z) (items : list json) (shown : Z) :
  0 <= n ->
  py_getslice src lo (lo + n) = Return page ->
  py_iter page = Return items -> py_len page = Return shown ->
  shown = Z.of_nat (List.length items) /\ shown <= n.
Proof.
  intros Hn Hslice Hiter Hlen. unfold py_getslice in Hslice.
  destruct src as [ | | | s | l | ]; try discriminate; inversion Hslice; subst page;
    cbn in Hiter, Hlen; inversion Hiter; inversion Hlen; subst.
  - unfold chars. rewrite !length_map.
    rewrite list_ascii_of_string_of_list_ascii.
    assert (Hlength : forall t, String.length t = List.length (list_ascii_of_string t))
      by (induction t; cbn; congruence).
    rewrite Hlength, list_ascii_of_string_of_list_ascii.
    split; [reflexivity | ].
    pose proof (py_slice_length (list_ascii_of_string s) lo (lo + n) ltac:(lia)). lia.
  - split; [reflexivity | ].
    pose proof (py_slice_length l lo (lo + n) ltac:(lia)). lia.
Qed.

Lemma classify_length (items : list json) :
  forall images queue images' queue',
    classify items images queue = Return (images', queue') ->
    (List.length images' + List.length queue'
     <= List.length images + List.length queue + List.length items)%nat.
Proof.
  induction items as [ | item rest IH]; intros images queue images' queue' Hc.
  - inversion Hc; subst. cbn. lia.
  - cbn [classify] in Hc. bind_inv Hc. bind_inv Hc. bind_inv Hc.
    cbn [List.length].
    destruct v as [rid | ];
      repeat match type of Hc with
             | (if ?c then _ else _) = _ => destruct c
             end;
      apply IH in Hc; rewrite ?length_app in Hc; cbn in Hc; lia.
Qed.

Lemma fallback_image_length (queued : string * option string)
    (outcome : result (list TextContent)) :
  (List.length (fallback_image queued outcome) <= 1)%nat.
Proof.
  unfold fallback_image. destruct outcome as [payloads | e]; [ | cbn; lia].
  destruct (manifest_image payloads) as [[url | ] | e]; cbn; lia.
Qed.

Lemma flat_map_length_le {A B} (f : A -> list B) (l : list A) :
  (forall a, List.length (f a) <= 1)%nat ->
  (List.length (flat_map f l) <= List.length l)%nat.
Proof.
  intros Hone. induction l as [ | a rest IH]; cbn; [lia | ].
  rewrite length_app. specialize (Hone a). lia.
Qed.

Lemma fallback_images_length (queue : list (string * option string)) :
  (List.length (fallback_images queue) <= List.length queue)%nat.
Proof.
  unfold fallback_images, manifest_results.
  etransitivity; [apply flat_map_length_le; intros qr; apply fallback_image_length | ].
  rewrite length_combine, length_map. lia.
Qed.

Lemma resolve_images_length (items : list json) (images : list ImageRecord) :
  resolve_images items = Return images ->
  (List.length images <= List.length items)%nat.
Proof.
  unfold resolve_images. intros Hr. bind_inv Hr. inversion Hr; subst images.
  destruct v as [direct queue]. apply classify_length in Hv.
  cbn [List.length] in Hv. cbn [fst snd].
  rewrite length_app. pose proof (fallback_images_length queue). lia.
Qed.

(** The summary never shows more than three items, and it never lists
    more image records than items shown: each item gives at most one. *)
Theorem composer_shows_at_most_three (arguments : dict) (payloads : list TextContent)
    (p : TextContent) (s : summary) :
  handle_generate_response arguments = Return payloads ->
  In p payloads -> text p = SummaryPrompt s ->
  0 <= s_batch_size s <= 3
  /\ Z.of_nat (List.length (s_items_images s)) <= s_batch_size s.
Proof.
  intros Hg Hin Hp.
  destruct (generate_response_search _ _ Hg)
    as [(total & page & Hsearch & Hc) | (c & flag & ->)].
  - apply compose_response_payloads in Hc.
    destruct Hc as (T & items & images & shown & _ & Hiter & Hres & Hlen & ->).
    apply handle_search_nli_page in Hsearch.
    destruct Hsearch as (src & lo & n & Hn & Hslice).
    unfold composer_search, get, get_default in Hn.
    rewrite lookup_store_same in Hn. inversion Hn; subst n.
    destruct (sliced_page_size src page lo 3 items shown ltac:(lia) Hslice Hiter Hlen)
      as [Hshown Hmax].
    apply resolve_images_length in Hres.
    assert (Hs : s_batch_size s = shown /\ s_items_images s = images).
    { destruct Hin as [<- | Hin]; [cbn in Hp; inversion Hp; subst s; auto | ].
      destruct (3 <? T); [ | contradiction].
      destruct Hin as [<- | []]. discriminate. }
    destruct Hs as [-> ->]. lia.
  - destruct Hin as [<- | []]. discriminate.
Qed.

(** When the search answers with its error text, the composer reports a
    failure to parse the search results: the text of the search error is
    not passed on. *)
Theorem composer_masks_search_failure (arguments params : dict) (q : json) :
  truthy (get arguments "user_query") = true ->
  lookup (composer_search arguments) "q" = Some q ->
  search_params (composer_search arguments) q = Return params ->
  fetch_failed (search_get params) = true ->
  handle_generate_response arguments
  = Return (error_text "Failed to parse search results: " JSONDecodeError).
Proof.
  intros Huq Hq Hparams Hfail. unfold handle_generate_response.
  assert (Hfull : truthy (JObj arguments) = true).
  { destruct arguments; [ | reflexivity]. cbn in Huq. discriminate. }
  rewrite Hfull, Huq. cbn [negb]. fold (composer_search arguments).
  unfold handle_search_nli, subscript. rewrite Hq. cbn [bind]. rewrite Hparams.
  cbn [bind].
  destruct (search_get params) as [e | e | [ | data]]; try discriminate;
    cbn [responded response_json bind try_except]; unfold error_text;
    cbn [first_payload bind text text_content];
    rewrite search_error_is_no_json; reflexivity.
Qed.

End ComposerPages.

Lemma composer_continues_above_three_witness :
  exists s T,
    handle_generate_response (H := seven_results_backend) (query_at 0)
      = Return [text_content (SummaryPrompt s);
                text_content
                  (ContinuationPrompt
                     {| c_more := 4; c_current_limit := JInt 3; c_next_offset := Some 3 |})]
    /\ as_int (s_total_results s) = Some T
    /\ s_results_start s = 1
    /\ s_results_end s = Z.min T 3
    /\ s_has_more s = (3 <? T)
    /\ s_next_offset s = (if 3 <? T then Some 3 else None).
Proof.
  destruct (handle_generate_response (H := seven_results_backend) (query_at 0))
    as [payloads | e] eqn:Hrun; vm_compute in Hrun; [ | discriminate].
  inversion Hrun as [Hpayloads]. clear Hrun.
  assert (Hagain : handle_generate_response (H := seven_results_backend) (query_at 0)
                   = Return payloads) by (subst payloads; vm_compute; reflexivity).
  subst payloads.
  destruct (composer_continues_above_three (H := seven_results_backend) (query_at 0)
              _ _ _ Hagain (or_introl eq_refl) eq_refl)
    as (T & HT & Hstart & Hend & Hmore & Hnext & _).
  eexists. exists T. split; [exact Hagain | ]. auto.
Defined.

Lemma composer_shows_at_most_three_witness :
  exists s rest,
    handle_generate_response (H := seven_results_backend) (query_at 0)
      = Return (text_content (SummaryPrompt s) :: rest)
    /\ 0 <= s_batch_size s <= 3
    /\ Z.of_nat (List.length (s_items_images s)) <= s_batch_size s.
Proof.
  destruct (handle_generate_response (H := seven_results_backend) (query_at 0))
    as [payloads | e] eqn:Hrun; vm_compute in Hrun; [ | discriminate].
  inversion Hrun as [Hpayloads]. clear Hrun.
  assert (Hagain : handle_generate_response (H := seven_results_backend) (query_at 0)
                   = Return payloads) by (subst payloads; vm_compute; reflexivity).
  subst payloads.
  eexists; eexists. split; [exact Hagain | ].
  exact (composer_shows_at_most_three (H := seven_results_backend) (query_at 0)
           _ _ _ Hagain (or_introl eq_refl) eq_refl).
Defined.

Lemma composer_masks_search_failure_witness :
  handle_generate_response (H := unreachable_backend) (query_at 0)
  = Return (error_text (H := unreachable_backend)
              "Failed to parse search results: " JSONDecodeError).
Proof.
  eapply (composer_masks_search_failure (H := unreachable_backend) (query_at 0));
    reflexivity.
Defined.

Section BatchResume.

Variables (user_query items_images : json) (search_data : dict) (items : list json).
Variable batch_size : Z.
Hypothesis items_listed : lookup search_data "items" = Some (JArr items).

Let len : Z := Z.of_nat (List.length items).

(** With a batch size that is not positive the streamer stays before the
    end of the items for ever: from an offset below their number no depth
    of calls is enough for it to return. *)
Theorem stream_batches_never_completes :
  batch_size <= 0 ->
  forall (depth : nat) (offset : Z),
    offset < len ->
    stream_batches depth user_query (JObj search_data) items_images offset batch_size
    = None.
Proof.
  intros Hsize. induction depth as [ | depth IH]; intros offset Hbelow; [reflexivity | ].
  cbn [stream_batches].
  rewrite (batch_step_listed user_query items_images search_data items batch_size
             items_listed offset).
  fold len. destruct (offset >=? len) eqn:Hend.
  - apply Z.geb_le in Hend. lia.
  - rewrite IH by lia. reflexivity.
Qed.

Lemma py_slice_window_length (offset : Z) :
  0 <= offset -> 0 <= batch_size -> offset <= len ->
  Z.of_nat (List.length (py_slice items offset (offset + batch_size)))
  = Z.min (offset + batch_size) len - offset.
Proof.
  intros Ho Hb Hin. rewrite py_slice_firstn_skipn by assumption.
  rewrite length_firstn, length_skipn. subst len. lia.
Qed.

(** The streamer can be resumed: from any offset that is not negative, with
    a batch size of at least 1 and depth for one call more than items are
    left, it returns batch reports and then the completion report; the
    batches are the items from the offset on, each once and in order, and
    every batch report is sound. *)
Theorem stream_batches_resumes :
  1 <= batch_size ->
  forall (depth : nat) (offset : Z),
    0 <= offset ->
    (Z.to_nat (len - offset) < depth)%nat ->
    exists batches,
      stream_batches depth user_query (JObj search_data) items_images offset batch_size
        = Some (Return
                  (map batch_report batches ++
                   [completion_report
                      {| f_len_items := len;
                         f_total_results :=
                           get_default search_data "total_results" (JInt 0);
                         f_user_query := user_query |}])%list)
      /\ List.concat (map batch_items batches) = skipn (Z.to_nat offset) items
      /\ Forall (sound_batch items batch_size offset) batches.
Proof.
  intros Hsize. induction depth as [ | depth IH]; intros offset Hpos Hdepth; [lia | ].
  cbn [stream_batches].
  rewrite (batch_step_listed user_query items_images search_data items batch_size
             items_listed offset).
  fold len. destruct (offset >=? len) eqn:Hend.
  - apply Z.geb_le in Hend. exists []. cbn.
    split; [reflexivity | ]. split; [ | constructor].
    symmetry. apply skipn_all2. subst len. lia.
  - rewrite Z.geb_leb in Hend. apply Z.leb_gt in Hend.
    destruct (IH (offset + batch_size)) as (batches & Hrun & Hconcat & Hsound);
      [lia | lia | ].
    eexists (_ :: batches). rewrite Hrun. cbn [map app List.concat].
    split; [reflexivity | ]. split.
    { rewrite Hconcat. cbn [batch_items b_context_items]. apply py_slice_rest; lia. }
    constructor.
    + unfold sound_batch.
      cbn [batch_items b_context_items batch_start batch_end next_offset].
      fold len. rewrite py_slice_window_length by lia.
      replace (offset + 1 - 1) with offset by lia.
      repeat split; try lia.
      symmetry. apply py_slice_clamped; lia.
    + eapply Forall_impl; [ | exact Hsound].
      intros b (Hfrom & Hrest). split; [lia | exact Hrest].
Qed.

End BatchResume.

Lemma stream_batches_never_completes_witness :
  stream_batches 1000 (JStr "maps") (JObj twenty_five_results) (JArr []) 0 0 = None.
Proof.
  apply (stream_batches_never_completes (JStr "maps") (JArr []) twenty_five_results
           twenty_five_items 0 eq_refl ltac:(lia) 1000%nat 0).
  cbn. lia.
Defined.

Lemma stream_batches_resumes_witness :
  exists batches,
    stream_batches 26 (JStr "maps") (JObj twenty_five_results) (JArr []) 20 10
      = Some (Return
                (map batch_report batches ++
                 [completion_report
                    {| f_len_items := 25; f_total_results := JInt 4312;
                       f_user_query := JStr "maps" |}])%list)
    /\ List.concat (map batch_items batches) = skipn 20 twenty_five_items
    /\ Forall (sound_batch twenty_five_items 10 20) batches.
Proof.
  apply (stream_batches_resumes (JStr "maps") (JArr []) twenty_five_results
           twenty_five_items 10 eq_refl ltac:(lia) 26%nat 20); cbn; lia.
Defined.

(** ** Stripping *)

Lemma lstrip_head (s : string) :
  match lstrip s with
  | EmptyString => True
  | String c _ => is_space c = false
  end.
Proof.
  induction s as [ | c r IH]; cbn [lstrip]; [exact I | ].
  destruct (is_space c) eqn:Hc; [exact IH | exact Hc].
Qed.

Lemma rstrip_cons (c : ascii) (r : string) :
  rstrip (String c r) =
  match rstrip r with
  | EmptyString => if is_space c then EmptyString else String c EmptyString
  | String c' r' => String c (String c' r')
  end.
Proof. cbn [rstrip]. destruct (rstrip r); reflexivity. Qed.

Lemma rstrip_idempotent (s : string) : rstrip (rstrip s) = rstrip s.
Proof.
  induction s as [ | c r IH]; [reflexivity | ].
  rewrite rstrip_cons. destruct (rstrip r) as [ | c' r'] eqn:Hr.
  - destruct (is_space c) eqn:Hc; [reflexivity | ].
    rewrite rstrip_cons. cbn [rstrip]. rewrite Hc. reflexivity.
  - rewrite rstrip_cons, IH. reflexivity.
Qed.

Lemma rstrip_head (c : ascii) (r : string) :
  is_space c = false -> exists r', rstrip (String c r) = String c r'.
Proof.
  intros Hc. rewrite rstrip_cons. destruct (rstrip r); [rewrite Hc | ]; eauto.
Qed.

Lemma strip_idempotent (s : string) : strip (strip s) = strip s.
Proof.
  unfold strip. pose proof (lstrip_head s) as Hhead.
  destruct (lstrip s) as [ | c r]; [reflexivity | ].
  destruct (rstrip_head c r Hhead) as [r' Hr']. rewrite Hr'.
  cbn [lstrip]. rewrite Hhead, <- Hr'. apply rstrip_idempotent.
Qed.

Lemma startswith_empty (s : string) : startswith s "" = true.
Proof. destruct s; reflexivity. Qed.

Lemma contains_empty (s : string) : contains s "" = true.
Proof. destruct s; reflexivity. Qed.

Lemma startswith_rstrip (s p : string) :
  startswith (rstrip s) p = true -> startswith s p = true.
Proof.
  revert p. induction s as [ | c r IH]; intros p; [auto | ].
  destruct p as [ | a p']; [reflexivity | ].
  rewrite rstrip_cons. destruct (rstrip r) as [ | c' r'] eqn:Hr.
  - destruct (is_space c); [discriminate | ].
    cbn [startswith]. intros Hs. apply andb_true_iff in Hs. destruct Hs as [Hac Hp].
    destruct p'; [ | discriminate]. rewrite Hac, startswith_empty. reflexivity.
  - cbn [startswith]. intros Hs. apply andb_true_iff in Hs. destruct Hs as [Hac Hp].
    rewrite Hac. apply IH. exact Hp.
Qed.

Lemma contains_rstrip (s p : string) :
  contains (rstrip s) p = true -> contains s p = true.
Proof.
  destruct p as [ | a p']; [intros _; apply contains_empty | ].
  induction s as [ | c r IH]; [auto | ].
  intros Hc.
  assert (Hcases : startswith (rstrip (String c r)) (String a p') = true
                   \/ contains (rstrip r) (String a p') = true).
  { revert Hc. rewrite rstrip_cons. destruct (rstrip r) as [ | c' r'] eqn:Hr.
    - destruct (is_space c); cbn; [discriminate | ].
      rewrite !orb_false_r. auto.
    - intros Hc. cbn [contains] in Hc. apply orb_true_iff in Hc.
      destruct Hc as [Hc | Hc]; [left; exact Hc | right; exact Hc]. }
  cbn [contains]. apply orb_true_iff.
  destruct Hcases as [Hs | Hs]; [left; apply startswith_rstrip; exact Hs | right; auto].
Qed.

Lemma contains_lstrip (s p : string) :
  contains (lstrip s) p = true -> contains s p = true.
Proof.
  induction s as [ | c r IH]; [auto | ].
  cbn [lstrip]. destruct (is_space c); [ | auto].
  intros Hc. cbn [contains]. rewrite (IH Hc). apply orb_true_r.
Qed.

Lemma contains_strip (s p : string) :
  contains s p = false -> contains (strip s) p = false.
Proof.
  intros Hnot. destruct (contains (strip s) p) eqn:Hc; [ | reflexivity].
  unfold strip in Hc. apply contains_rstrip, contains_lstrip in Hc. congruence.
Qed.

Section NormaliserOutputs.
Context `{Runtime}.

Lemma extract_value_from_json_stripped (value : json) (v : string) :
  extract_value_from_json value = Return v -> strip v = v.
Proof.
  unfold extract_value_from_json. destruct value as [ | | | s | | ]; try discriminate.
  intros He. bind_inv He.
  destruct v0 as [[ | | | | | m] | ];
    try (inversion He; apply strip_idempotent).
  destruct (lookup m "@value"); inversion He; apply strip_idempotent.
Qed.

(** Whatever the normaliser returns is stripped: stripping it again
    changes nothing. *)
Theorem normalised_field_is_stripped (item : json) (key_name r : string) :
  get_simple_field item key_name = Return (Some r) -> strip r = r.
Proof.
  unfold get_simple_field. intros Hg. bind_inv Hg.
  assert (Hplain :
    match v with
    | JNull => Return None
    | _ => Return (Some (strip (py_str v)))
    end = Return (Some r) -> strip r = r).
  { destruct v; intros Hp; inversion Hp; apply strip_idempotent. }
  destruct v as [ | | | s | l | ]; try exact (Hplain Hg).
  - destruct (contains s "@value"); [ | exact (Hplain Hg)].
    bind_inv Hg. inversion Hg; subst.
    eapply extract_value_from_json_stripped; eassumption.
  - bind_inv Hg. bind_inv Hg. destruct v0; [ | exact (Hplain Hg)].
    bind_inv Hg. inversion Hg; subst.
    eapply extract_value_from_json_stripped; eassumption.
Qed.

(** A string without the marker is returned stripped, and normalising the
    returned string again returns it unchanged. *)
Theorem normalise_plain_string_twice (m m' : dict) (key_name s : string) :
  get m key_name = JStr s ->
  contains s "@value" = false ->
  get m' key_name = JStr (strip s) ->
  get_simple_field (JObj m) key_name = Return (Some (strip s))
  /\ get_simple_field (JObj m') key_name = Return (Some (strip s)).
Proof.
  intros Hs Hplain Hs'. unfold get_simple_field. cbn [obj_get bind].
  unfold get in Hs, Hs'. rewrite Hs, Hs'.
  rewrite Hplain, (contains_strip _ _ Hplain). cbn [py_str].
  rewrite strip_idempotent. auto.
Qed.

(** A list whose first element is a string. With the marker in that
    element the result is read from it alone, whatever follows in the list;
    without the marker the result is the stripped [str()] of the whole
    list, not its first element. *)
Theorem normalise_list_of_strings (m m' : dict) (key_name s : string)
    (rest rest' : list json) :
  get m key_name = JArr (JStr s :: rest) ->
  get m' key_name = JArr (JStr s :: rest') ->
  (contains s "@value" = true ->
   get_simple_field (JObj m) key_name = get_simple_field (JObj m') key_name)
  /\ (contains s "@value" = false ->
      get_simple_field (JObj m) key_name
      = Return (Some (strip (py_repr (JArr (JStr s :: rest)))))).
Proof.
  intros Hm Hm'. unfold get_simple_field. cbn [obj_get bind].
  unfold get in Hm, Hm'. rewrite Hm, Hm'. cbn [py_first bind py_in].
  split; intros Hmark; rewrite Hmark; reflexivity.
Qed.

End NormaliserOutputs.

Lemma normalised_field_is_stripped_witness :
  strip "Jerusalem, a map" = "Jerusalem, a map".
Proof.
  apply (normalised_field_is_stripped (H := offline)
           (JObj [(TITLE, JStr "  Jerusalem, a map ")]) TITLE).
  reflexivity.
Defined.

Lemma normalise_plain_string_twice_witness :
  get_simple_field (H := offline) (JObj [(TITLE, JStr "  Jerusalem, a map ")]) TITLE
    = Return (Some "Jerusalem, a map")
  /\ get_simple_field (H := offline) (JObj [(TITLE, JStr "Jerusalem, a map")]) TITLE
     = Return (Some "Jerusalem, a map").
Proof.
  apply (normalise_plain_string_twice (H := offline)
           [(TITLE, JStr "  Jerusalem, a map ")] [(TITLE, JStr "Jerusalem, a map")]
           TITLE "  Jerusalem, a map "); reflexivity.
Defined.

Lemma normalise_list_of_strings_witness :
  get_simple_field (H := offline)
    (JObj [(TITLE, JArr [JStr "Jerusalem"; JStr "Yerushalayim"])]) TITLE
  = Return (Some "<object>").
Proof.
  apply (proj2 (normalise_list_of_strings (H := offline)
                  [(TITLE, JArr [JStr "Jerusalem"; JStr "Yerushalayim"])]
                  [(TITLE, JArr [JStr "Jerusalem"])] TITLE "Jerusalem"
                  [JStr "Yerushalayim"] [] eq_refl eq_refl)).
  reflexivity.
Defined.

Section MediaHandlers.
Context `{Runtime}.

Lemma handle_get_stream_returns (arguments : dict) (itemId : json) :
  lookup arguments "itemId" = Some itemId ->
  exists p, handle_get_stream arguments = Return [p].
Proof.
  intros Hid. unfold handle_get_stream, subscript. rewrite Hid. cbn [bind].
  match goal with |- exists _, try_except ?body _ = _ => destruct body as [ps | e] eqn:Hbody end;
    cbn [try_except]; [ | eexists; reflexivity].
  repeat bind_inv Hbody. destruct (negb (truthy v1)).
  - inversion Hbody. eauto.
  - repeat bind_inv Hbody. inversion Hbody. eauto.
Qed.

Lemma handle_get_image_returns (arguments : dict) (identifier : json) :
  lookup arguments "identifier" = Some identifier ->
  exists p, handle_get_image arguments = Return [p].
Proof.
  intros Hid. unfold handle_get_image, subscript. rewrite Hid. cbn [bind].
  match goal with |- exists _, try_except ?body _ = _ => destruct body as [ps | e] eqn:Hbody end;
    cbn [try_except]; [ | eexists; reflexivity].
  bind_inv Hbody. inversion Hbody. eauto.
Qed.

(** The stream handler answers every request that names an item with one
    payload: the error text when the lookup fails, [Item not found] when
    the reply has no item, the streams otherwise. *)
Theorem stream_handler_answers (arguments : dict) (itemId : json) :
  lookup arguments "itemId" = Some itemId ->
  let params := [ ("api_key", JStr NLI_API_KEY);
                  ("query", JStr ("RecordId,exact," ++ py_str itemId));
                  ("format", JStr "json"); ("rows", JInt 1); ("start", JInt 0) ] in
  (exists p, handle_get_stream arguments = Return [p])
  /\ (fetch_failed (search_get params) = true ->
      exists e, handle_get_stream arguments
                = Return (error_text "Error retrieving streams: " e))
  /\ (forall m, search_get params = Replied (Document (JObj m)) ->
                truthy (get_default m "items" (JArr [])) = false ->
                handle_get_stream arguments
                = Return [text_content (Chars "Item not found")]).
Proof.
  intros Hid params. split; [exact (handle_get_stream_returns _ _ Hid) | ].
  unfold handle_get_stream, subscript. rewrite Hid. cbn [bind]. fold params.
  split.
  - destruct (search_get params) as [e | e | [ | data]]; try discriminate; intros _;
      eexists; reflexivity.
  - intros m Hreply Hnone. rewrite Hreply. cbn [responded response_json bind obj_get].
    rewrite Hnone. reflexivity.
Qed.

(** The streams of the first item found. A kind of stream is in the
    answer exactly when the format asks for it, by its name or by [all],
    and the document has a URL for it; the kinds come in the order mp4, hls,
    audio, and a format that names none of them gives the empty object. *)
Theorem stream_handler_selects_formats (arguments m doc : dict) (itemId : json)
    (others : list json) :
  lookup arguments "itemId" = Some itemId ->
  search_get [ ("api_key", JStr NLI_API_KEY);
               ("query", JStr ("RecordId,exact," ++ py_str itemId));
               ("format", JStr "json"); ("rows", JInt 1); ("start", JInt 0) ]
    = Replied (Document (JObj m)) ->
  get_default m "items" (JArr []) = JArr (JObj doc :: others) ->
  let fmt := get_default arguments "format" (JStr "all") in
  handle_get_stream arguments =
  Return [text_content
            (Dumped (JObj (stream_entry fmt doc "mp4" "stream_url_mp4"
                           ++ stream_entry fmt doc "hls" "stream_url_hls"
                           ++ stream_entry fmt doc "audio" "audio_url")%list))].
Proof.
  intros Hid Hreply Hitems fmt.
  unfold handle_get_stream, subscript. rewrite Hid. cbn [bind]. rewrite Hreply.
  cbn [responded response_json bind obj_get]. rewrite Hitems.
  cbn [truthy negb py_first bind]. fold fmt.
  unfold add_stream, stream_entry, wanted, get. cbn [obj_get bind].
  destruct (is_str fmt "mp4" || is_str fmt "all")%bool;
    destruct (is_str fmt "hls" || is_str fmt "all")%bool;
    destruct (is_str fmt "audio" || is_str fmt "all")%bool;
    cbn [andb bind];
    destruct (truthy (get_default doc "stream_url_mp4" JNull));
    destruct (truthy (get_default doc "stream_url_hls" JNull));
    destruct (truthy (get_default doc "audio_url" JNull));
    reflexivity.
Qed.

(** The image handler with the identifier alone asks for the whole image
    at its largest size, unrotated, as [default.jpg]. It reports success as
    soon as the request succeeds, whatever the body of the response, and the
    error text otherwise. *)
Theorem image_handler_checks_availability (arguments : dict) (identifier : string) :
  lookup arguments "identifier" = Some (JStr identifier) ->
  lookup arguments "region" = None -> lookup arguments "size" = None ->
  lookup arguments "rotation" = None -> lookup arguments "quality" = None ->
  lookup arguments "format" = None ->
  let url := default_image_url identifier in
  handle_get_image arguments =
  Return [text_content
            (Chars match url_get url with
                   | Replied _ => "Image retrieved successfully from: " ++ url
                   | Unreachable e => "Error retrieving image: " ++ exn_str e
                   | Refused e => "Error retrieving image: " ++ exn_str e
                   end)].
Proof.
  intros Hid Hregion Hsize Hrotation Hquality Hformat url.
  unfold handle_get_image, subscript, get_default.
  rewrite Hid, Hregion, Hsize, Hrotation, Hquality, Hformat. cbn [bind py_str].
  assert (Hurl : BASE_IIIF_IMAGE ++ "/" ++ identifier ++ "/" ++ "full" ++ "/" ++ "max"
                 ++ "/" ++ "0.0" ++ "/" ++ "default" ++ "." ++ "jpg" = url)
    by reflexivity.
  rewrite Hurl. destruct (url_get url) as [e | e | r]; reflexivity.
Qed.

End MediaHandlers.

Lemma stream_handler_answers_witness :
  handle_get_stream (H := bare_list_backend) [("itemId", JStr "990001")]
  = Return (error_text (H := bare_list_backend) "Error retrieving streams: " AttributeError).
Proof.
  destruct (stream_handler_answers (H := bare_list_backend)
              [("itemId", JStr "990001")] (JStr "990001") eq_refl)
    as ([p Hrun] & _ & _).
  rewrite Hrun. vm_compute in Hrun. inversion Hrun. reflexivity.
Defined.

Lemma stream_handler_selects_formats_witness :
  handle_get_stream (H := film_backend) [("itemId", JStr "990001"); ("format", JStr "all")]
  = Return [text_content
              (Dumped (JObj [("mp4", JStr "https://media.nli.org.il/1.mp4");
                             ("audio", JStr "https://media.nli.org.il/1.mp3")]))].
Proof.
  apply (stream_handler_selects_formats (H := film_backend)
           [("itemId", JStr "990001"); ("format", JStr "all")]
           [("items", JArr [JObj film_document])] film_document (JStr "990001") []);
    reflexivity.
Defined.

Lemma image_handler_checks_availability_witness :
  handle_get_image (H := film_backend) [("identifier", JStr "IE123")]
  = Return [text_content
              (Chars ("Image retrieved successfully from: "
                      ++ "https://iiif.nli.org.il/IIIFv21/IE123/full/max/0.0/default.jpg"))].
Proof.
  apply (image_handler_checks_availability (H := film_backend)
           [("identifier", JStr "IE123")] "IE123"); reflexivity.
Defined.

Section Tools.
Context `{Runtime}.

Lemma name_differs (name other : string) :
  name <> other -> String.eqb name other = false.
Proof. intros Hne. apply String.eqb_neq. exact Hne. Qed.

(** The dispatcher knows exactly the tools that are listed: it raises the
    [ValueError] for an unknown tool on the names outside the list, and on
    no name of the list. *)
Theorem dispatcher_knows_listed_tools (depth : nat) (name : string) (arguments : dict) :
  handle_call_tool depth name arguments
    = Some (Raise (ValueError ("Unknown tool: " ++ name)))
  <-> ~ In name (map tool_name handle_list_tools).
Proof.
  split.
  - intros Hraise Hin. cbn in Hin.
    destruct Hin as [<- | [<- | [<- | [<- | [<- | [<- | []]]]]]];
      cbn in Hraise.
    + discriminate.
    + destruct (handle_generate_response_returns arguments) as [payloads Hrun].
      rewrite Hrun in Hraise. discriminate.
    + discriminate.
    + destruct (lookup arguments "identifier") as [v | ] eqn:Hid.
      * destruct (handle_get_image_returns _ _ Hid) as [p Hrun].
        rewrite Hrun in Hraise. discriminate.
      * unfold handle_get_image, subscript in Hraise. rewrite Hid in Hraise.
        discriminate.
    + destruct (lookup arguments "recordId") as [v | ] eqn:Hid.
      * rewrite (handle_get_manifest_returns _ _ Hid) in Hraise. discriminate.
      * unfold handle_get_manifest, subscript in Hraise. rewrite Hid in Hraise.
        discriminate.
    + destruct (lookup arguments "itemId") as [v | ] eqn:Hid.
      * destruct (handle_get_stream_returns _ _ Hid) as [p Hrun].
        rewrite Hrun in Hraise. discriminate.
      * unfold handle_get_stream, subscript in Hraise. rewrite Hid in Hraise.
        discriminate.
  - intros Hout. cbn in Hout. unfold handle_call_tool.
    rewrite !name_differs by (intros ->; tauto). reflexivity.
Qed.

(** Every listed tool but [stream_batches], called through the dispatcher
    with the keys its schema requires, returns text payloads, at least
    one, and raises nothing. *)
Theorem listed_tools_return_text (depth : nat) (t : Tool) (arguments : dict) :
  In t handle_list_tools ->
  tool_name t <> "stream_batches" ->
  (forall key, In key (tool_required t) -> lookup arguments key <> None) ->
  exists p rest,
    handle_call_tool depth (tool_name t) arguments = Some (Return (p :: rest)).
Proof.
  intros Hin Hother Hkeys. cbn in Hin.
  destruct Hin as [<- | [<- | [<- | [<- | [<- | [<- | []]]]]]];
    cbn [tool_name tool_required] in *.
  - cbn. unfold handle_process_natural_query. eauto.
  - destruct (generate_response_payload_count arguments) as (payloads & Hrun & Hcount).
    cbn. rewrite Hrun. destruct payloads; [cbn in Hcount; lia | eauto].
  - congruence.
  - destruct (lookup arguments "identifier") as [v | ] eqn:Hid;
      [ | exfalso; apply (Hkeys "identifier"); [left; reflexivity | exact Hid]].
    destruct (handle_get_image_returns _ _ Hid) as [p Hrun]. cbn. rewrite Hrun. eauto.
  - destruct (lookup arguments "recordId") as [v | ] eqn:Hid;
      [ | exfalso; apply (Hkeys "recordId"); [left; reflexivity | exact Hid]].
    cbn. rewrite (handle_get_manifest_returns _ _ Hid). eauto.
  - destruct (lookup arguments "itemId") as [v | ] eqn:Hid;
      [ | exfalso; apply (Hkeys "itemId"); [left; reflexivity | exact Hid]].
    destruct (handle_get_stream_returns _ _ Hid) as [p Hrun]. cbn. rewrite Hrun. eauto.
Qed.

End Tools.

Lemma dispatcher_knows_listed_tools_witness :
  handle_call_tool (H := offline) 1 "search_nli" [("q", JStr "any,contains,x")]
  = Some (Raise (ValueError "Unknown tool: search_nli")).
Proof.
  apply (proj2 (dispatcher_knows_listed_tools (H := offline) 1 "search_nli"
                  [("q", JStr "any,contains,x")])).
  cbn. intuition discriminate.
Defined.

Lemma listed_tools_return_text_witness :
  exists p rest,
    handle_call_tool (H := refusing_manifests) 1 "get_manifest" [("recordId", JStr "990001")]
    = Some (Return (p :: rest)).
Proof.
  apply (listed_tools_return_text (H := refusing_manifests) 1
           {| tool_name := "get_manifest"; tool_required := ["recordId"] |}
           [("recordId", JStr "990001")]).
  - cbn. tauto.
  - discriminate.
  - intros key [<- | []]. discriminate.
Defined.
